(** * Shield: the voice-driven weather controller of the farmers' application

    A shallow embedding of the two revisions of the [App] component of
    the repository:

    - [src/App.tsx]           (module [AppTsx]), and
    - [src/unnamed/part_000]  (module [Part000]), the revision that adds
      the advisory slot, the visibility handler and the spoken error.

    React state is a record of slots ([View]); the browser objects the
    component talks to (the speech synthesiser and its queue, speech
    recognition, the console) are explicit state next to it ([World]).
    Handlers are written in a small state-and-exception monad so that
    they read like the source.  The functions the component imports
    ([getCoordinates], [getWeatherData], [numberToTelugu],
    [getAgricultureSuggestions]) are a parameter ([Imports]).  For
    part_000 an event loop ([Part000.step]) interleaves button presses,
    transcripts, the settling of the two promises of each lookup, and
    the synthesiser's callbacks. *)

From Stdlib Require Import String Ascii List Bool Arith Lia PrimFloat.
Import ListNotations.
Open Scope string_scope.

(** ** JavaScript values met by the translation expression *)

Module JS.

(** The values [weatherDescriptionsTelugu[k] || d] can evaluate to.  A
    property read on an object literal walks the prototype chain, so
    besides the strings of the table it can yield the members of
    [Object.prototype]. *)
Inductive value : Type :=
| Undefined
| Str (s : string)
| NativeFunction (name : string)   (* a built-in function object *)
| ObjectPrototype.                 (* the object [Object.prototype] *)

(** [ToBoolean]. *)
Definition truthy (v : value) : bool :=
  match v with
  | Undefined => false
  | Str s => negb (s =? "")
  | NativeFunction _ => true
  | ObjectPrototype => true
  end.

(** [a || b]. *)
Definition or (a b : value) : value := if truthy a then a else b.

(** [ToString], as applied by a template literal.  The text of a
    built-in function is the one V8 and JavaScriptCore print. *)
Definition toString (v : value) : string :=
  match v with
  | Undefined => "undefined"
  | Str s => s
  | NativeFunction name => "function " ++ name ++ "() { [native code] }"
  | ObjectPrototype => "[object Object]"
  end.

(** An object literal with string values: its own properties, in
    source order. *)
Definition object := list (string * string).

Fixpoint own (o : object) (key : string) : option string :=
  match o with
  | [] => None
  | (k, v) :: rest => if k =? key then Some v else own rest key
  end.

(** The properties every object literal inherits from
    [Object.prototype]. *)
Definition Object_prototype : list (string * value) :=
  [ ("constructor", NativeFunction "Object");
    ("hasOwnProperty", NativeFunction "hasOwnProperty");
    ("isPrototypeOf", NativeFunction "isPrototypeOf");
    ("propertyIsEnumerable", NativeFunction "propertyIsEnumerable");
    ("toLocaleString", NativeFunction "toLocaleString");
    ("toString", NativeFunction "toString");
    ("valueOf", NativeFunction "valueOf");
    ("__defineGetter__", NativeFunction "__defineGetter__");
    ("__defineSetter__", NativeFunction "__defineSetter__");
    ("__lookupGetter__", NativeFunction "__lookupGetter__");
    ("__lookupSetter__", NativeFunction "__lookupSetter__");
    ("__proto__", ObjectPrototype) ].

Fixpoint inherited (p : list (string * value)) (key : string) : value :=
  match p with
  | [] => Undefined
  | (k, v) :: rest => if k =? key then v else inherited rest key
  end.

(** [o[key]]: own property first, then the prototype. *)
Definition get (o : object) (key : string) : value :=
  match own o key with
  | Some s => Str s
  | None => inherited Object_prototype key
  end.

(** [String.prototype.toLowerCase] on the ASCII letters.  Strings are
    kept as their UTF-8 bytes; bytes outside [A-Z] are left alone. *)
Definition lowerAscii (c : ascii) : ascii :=
  let n := nat_of_ascii c in
  if ((65 <=? n) && (n <=? 90))%nat then ascii_of_nat (n + 32) else c.

Fixpoint asciiToLowerCase (s : string) : string :=
  match s with
  | EmptyString => EmptyString
  | String c rest => String (lowerAscii c) (asciiToLowerCase rest)
  end.

End JS.

(** ** The translation table (both revisions, lines 9-19) *)

Definition weatherDescriptionsTelugu : JS.object :=
  [ ("clear sky", "పారదర్శక ఆకాశం");
    ("few clouds", "కొన్ని మేఘాలు");
    ("scattered clouds", "చిన్న చిన్న మేఘాలు");
    ("broken clouds", "పగిలిన మేఘాలు");
    ("shower rain", "తీవ్ర వర్షం");
    ("rain", "వర్షం");
    ("thunderstorm", "ఇరుపులు మేఘాలు");
    ("snow", "మంచు");
    ("mist", "మబ్బు") ].

(** ** Data model *)

(** Modelled from the spec: the type [WeatherData] of [./types/weather],
    which both revisions import: location name, temperature, humidity,
    wind speed and a free-text description.  Numbers are IEEE doubles. *)
Record WeatherData : Type := {
  location : string;
  temperature : float;
  humidity : float;
  windSpeed : float;
  weatherDesc : string
}.

(** Modelled from the spec: the latitude/longitude pair that chains
    [getCoordinates] to [getWeatherData]. *)
Record Coordinates : Type := { lat : float; lon : float }.

(** What a JavaScript [throw] carries here. *)
Inductive Exn : Type :=
| Error (message : string)
| TypeError (message : string)
| ReferenceError (message : string).

(** How an awaited promise settles. *)
Inductive Outcome (A : Type) : Type :=
| Fulfilled (a : A)
| Rejected (reason : Exn).
Arguments Fulfilled {A} a.
Arguments Rejected {A} reason.

(** The functions the component imports and the built-ins it calls.
    Their code is outside the two files; the controller is verified
    against every implementation of them.  [getWeatherData] may fulfil
    with no reading ([null]), which is what the [!data] test of
    part_000 guards against. *)
Class Imports : Type := {
  Math_round : float -> float;
  numberToTelugu : float -> string;
  getAgricultureSuggestions : WeatherData -> string;
  toLowerCase : string -> string;
  getCoordinates : string -> Outcome Coordinates;
  getWeatherData : Coordinates -> string -> Outcome (option WeatherData)
}.

(** ** View state and the browser around it *)

(** The [useState] slots of [App].  The revision in [src/App.tsx] has no
    [agricultureTips] slot and never touches it. *)
Record View : Type := {
  weatherData : option WeatherData;
  agricultureTips : option string;
  isListening : bool;
  error : option string;
  isSpeaking : bool
}.

(** A [SpeechSynthesisUtterance].  [callbacks] records that [onstart],
    [onend] and [onerror] are the three closures [speakWeatherInfo]
    installs (they write the [isSpeaking] slot); the error utterance of
    [speakErrorMessage] has none. *)
Record Utterance : Type := {
  text : string;
  lang : string;
  callbacks : bool
}.

(** Options passed to [SpeechRecognition.startListening]. *)
Record ListenOptions : Type := { language : string; continuous : bool }.

(** A lookup suspended at one of its two [await]s. *)
Inductive Lookup : Type :=
| AwaitingCoordinates (place : string)
| AwaitingWeather (coordinates : Coordinates) (place : string).

Inductive LogLine : Type :=
| Log (label : string) (payload : string)
| LogError (label : string) (err : Exn).

Record World : Type := {
  view : View;
  (* window.speechSynthesis: present or not, its queue (head first),
     whether the head has begun being spoken, and the utterances a
     [cancel] removed, whose error events are still to be delivered *)
  speechSynthesisInWindow : bool;
  queue : list Utterance;
  started : bool;
  interrupted : list Utterance;
  (* react-speech-recognition *)
  browserSupportsSpeechRecognition : bool;
  transcript : string;
  recognizing : option ListenOptions;
  (* document.hidden *)
  documentHidden : bool;
  (* lookups in flight *)
  lookups : list Lookup;
  console : list LogLine
}.

Definition with_view (f : View -> View) (w : World) : World :=
  {| view := f (view w);
     speechSynthesisInWindow := speechSynthesisInWindow w;
     queue := queue w; started := started w; interrupted := interrupted w;
     browserSupportsSpeechRecognition := browserSupportsSpeechRecognition w;
     transcript := transcript w; recognizing := recognizing w;
     documentHidden := documentHidden w;
     lookups := lookups w; console := console w |}.

Definition with_synth (q : list Utterance) (st : bool) (i : list Utterance)
    (w : World) : World :=
  {| view := view w;
     speechSynthesisInWindow := speechSynthesisInWindow w;
     queue := q; started := st; interrupted := i;
     browserSupportsSpeechRecognition := browserSupportsSpeechRecognition w;
     transcript := transcript w; recognizing := recognizing w;
     documentHidden := documentHidden w;
     lookups := lookups w; console := console w |}.

Definition with_recognition (t : string) (r : option ListenOptions)
    (w : World) : World :=
  {| view := view w;
     speechSynthesisInWindow := speechSynthesisInWindow w;
     queue := queue w; started := started w; interrupted := interrupted w;
     browserSupportsSpeechRecognition := browserSupportsSpeechRecognition w;
     transcript := t; recognizing := r;
     documentHidden := documentHidden w;
     lookups := lookups w; console := console w |}.

Definition with_hidden (h : bool) (w : World) : World :=
  {| view := view w;
     speechSynthesisInWindow := speechSynthesisInWindow w;
     queue := queue w; started := started w; interrupted := interrupted w;
     browserSupportsSpeechRecognition := browserSupportsSpeechRecognition w;
     transcript := transcript w; recognizing := recognizing w;
     documentHidden := h;
     lookups := lookups w; console := console w |}.

Definition with_lookups (l : list Lookup) (w : World) : World :=
  {| view := view w;
     speechSynthesisInWindow := speechSynthesisInWindow w;
     queue := queue w; started := started w; interrupted := interrupted w;
     browserSupportsSpeechRecognition := browserSupportsSpeechRecognition w;
     transcript := transcript w; recognizing := recognizing w;
     documentHidden := documentHidden w;
     lookups := l; console := console w |}.

Definition with_console (c : list LogLine) (w : World) : World :=
  {| view := view w;
     speechSynthesisInWindow := speechSynthesisInWindow w;
     queue := queue w; started := started w; interrupted := interrupted w;
     browserSupportsSpeechRecognition := browserSupportsSpeechRecognition w;
     transcript := transcript w; recognizing := recognizing w;
     documentHidden := documentHidden w;
     lookups := lookups w; console := c |}.

(** The component as first rendered, in a browser with the given
    capabilities. *)
Definition initialView : View :=
  {| weatherData := None; agricultureTips := None; isListening := false;
     error := None; isSpeaking := false |}.

Definition initialWorld (synthesis recognition : bool) : World :=
  {| view := initialView;
     speechSynthesisInWindow := synthesis;
     queue := []; started := false; interrupted := [];
     browserSupportsSpeechRecognition := recognition;
     transcript := ""; recognizing := None;
     documentHidden := false;
     lookups := []; console := [] |}.

(** ** Handlers as state transformers that may throw *)

Inductive Completion (A : Type) : Type :=
| Normal (a : A)
| Throw (e : Exn).
Arguments Normal {A} a.
Arguments Throw {A} e.

Definition M (A : Type) : Type := World -> Completion A * World.

Definition ret {A : Type} (a : A) : M A := fun w => (Normal a, w).

Definition bind {A B : Type} (m : M A) (k : A -> M B) : M B :=
  fun w =>
    match m w with
    | (Normal a, w') => k a w'
    | (Throw e, w') => (Throw e, w')
    end.

Definition throw {A : Type} (e : Exn) : M A := fun w => (Throw e, w).

(** [try { body } catch (err) { handler }]: the writes [body] made
    before it threw stay. *)
Definition try_catch {A : Type} (body : M A) (handler : Exn -> M A) : M A :=
  fun w =>
    match body w with
    | (Normal a, w') => (Normal a, w')
    | (Throw e, w') => handler e w'
    end.

(** [await p] once [p] has settled. *)
Definition await {A : Type} (p : Outcome A) : M A :=
  match p with
  | Fulfilled a => ret a
  | Rejected reason => throw reason
  end.

Declare Scope handler_scope.
Delimit Scope handler_scope with handler.
Notation "x <- m ;; k" := (bind m (fun x => k))
  (at level 61, m at next level, right associativity) : handler_scope.
Notation "m ;; k" := (bind m (fun _ => k))
  (at level 61, right associativity) : handler_scope.
Open Scope handler_scope.

(** The world a handler leaves, and whether it returned. *)
Definition after {A : Type} (m : M A) (w : World) : World := snd (m w).

Definition returns {A : Type} (m : M A) (w : World) : bool :=
  match fst (m w) with Normal _ => true | Throw _ => false end.

(** *** The [useState] setters *)

Definition setWeatherData (d : option WeatherData) : M unit :=
  fun w => (Normal tt, with_view (fun v =>
    {| weatherData := d; agricultureTips := agricultureTips v;
       isListening := isListening v; error := error v;
       isSpeaking := isSpeaking v |}) w).

Definition setAgricultureTips (t : option string) : M unit :=
  fun w => (Normal tt, with_view (fun v =>
    {| weatherData := weatherData v; agricultureTips := t;
       isListening := isListening v; error := error v;
       isSpeaking := isSpeaking v |}) w).

Definition setIsListening (b : bool) : M unit :=
  fun w => (Normal tt, with_view (fun v =>
    {| weatherData := weatherData v; agricultureTips := agricultureTips v;
       isListening := b; error := error v;
       isSpeaking := isSpeaking v |}) w).

Definition setError (e : option string) : M unit :=
  fun w => (Normal tt, with_view (fun v =>
    {| weatherData := weatherData v; agricultureTips := agricultureTips v;
       isListening := isListening v; error := e;
       isSpeaking := isSpeaking v |}) w).

Definition setIsSpeaking (b : bool) : M unit :=
  fun w => (Normal tt, with_view (fun v =>
    {| weatherData := weatherData v; agricultureTips := agricultureTips v;
       isListening := isListening v; error := error v;
       isSpeaking := b |}) w).

(** *** The console *)

Definition console_log (label payload : string) : M unit :=
  fun w => (Normal tt, with_console (console w ++ [Log label payload]) w).

Definition console_error (label : string) (err : Exn) : M unit :=
  fun w => (Normal tt, with_console (console w ++ [LogError label err]) w).

(** *** Speech synthesis

    One capability flag stands for the whole synthesis API: a browser
    without [window.speechSynthesis] has no [SpeechSynthesisUtterance]
    constructor either. *)

(** ['speechSynthesis' in window]. *)
Definition speechSynthesis_in_window : M bool :=
  fun w => (Normal (speechSynthesisInWindow w), w).

(** [window.speechSynthesis.cancel()]: empties the queue; speaking
    ceases at once.  Without the API the property read yields
    [undefined] and the call throws. *)
Definition speechSynthesis_cancel : M unit :=
  fun w =>
    if speechSynthesisInWindow w
    then (Normal tt, with_synth [] false (interrupted w ++ queue w) w)
    else (Throw (TypeError "window.speechSynthesis is undefined"), w).

(** [window.speechSynthesis.speak(u)]: appends to the queue. *)
Definition speechSynthesis_speak (u : Utterance) : M unit :=
  fun w =>
    if speechSynthesisInWindow w
    then (Normal tt, with_synth (queue w ++ [u]) (started w) (interrupted w) w)
    else (Throw (TypeError "window.speechSynthesis is undefined"), w).

(** [new SpeechSynthesisUtterance(text)]. *)
Definition new_SpeechSynthesisUtterance (t : string) : M Utterance :=
  fun w =>
    if speechSynthesisInWindow w
    then (Normal {| text := t; lang := ""; callbacks := false |}, w)
    else (Throw (ReferenceError "SpeechSynthesisUtterance is not defined"), w).

Definition set_lang (l : string) (u : Utterance) : Utterance :=
  {| text := text u; lang := l; callbacks := callbacks u |}.

(** [u.onstart = ...; u.onend = ...; u.onerror = ...] *)
Definition set_callbacks (u : Utterance) : Utterance :=
  {| text := text u; lang := lang u; callbacks := true |}.

(** *** Speech recognition (react-speech-recognition) *)

Definition resetTranscript : M unit :=
  fun w => (Normal tt, with_recognition "" (recognizing w) w).

Definition SpeechRecognition_startListening (o : ListenOptions) : M unit :=
  fun w => (Normal tt, with_recognition (transcript w) (Some o) w).

Definition SpeechRecognition_stopListening : M unit :=
  fun w => (Normal tt, with_recognition (transcript w) None w).

(** [document.hidden]. *)
Definition document_hidden : M bool :=
  fun w => (Normal (documentHidden w), w).

(** A handler run by the event loop: an exception that escapes it is
    reported on the console and the writes made so far stay. *)
Definition dispatch (m : M unit) (w : World) : World :=
  match m w with
  | (Normal _, w') => w'
  | (Throw e, w') => with_console (console w' ++ [LogError "Uncaught" e]) w'
  end.

(** How the two promises of a lookup settle, taken together: the
    reading, or the first rejection. *)
Definition lookup `{Imports} (place : string) : Outcome (option WeatherData) :=
  match getCoordinates place with
  | Fulfilled coordinates => getWeatherData coordinates place
  | Rejected reason => Rejected reason
  end.

Definition lookupFails `{Imports} (place : string) : bool :=
  match lookup place with
  | Rejected _ => true
  | Fulfilled _ => false
  end.

(** ** What both revisions share: the translation and the template *)

Definition newline : string := String (ascii_of_nat 10) EmptyString.

(** [weatherDescriptionsTelugu[weatherDesc.toLowerCase()] || weatherDesc]
    (part_000 lines 103-104 and 173; App.tsx lines 94 and 165). *)
Definition weatherDescriptionInTelugu `{Imports} (weatherDesc : string)
    : JS.value :=
  JS.or (JS.get weatherDescriptionsTelugu (toLowerCase weatherDesc))
        (JS.Str weatherDesc).

(** The template literal of [speakWeatherInfo], line by line; the first
    line is the only one on which the revisions differ. *)
Definition speechText (firstLine tempInTelugu description humidityInTelugu
    windSpeedInTelugu tips : string) : string :=
  String.concat newline
    [ "";
      "        " ++ firstLine;
      "        ఉష్ణోగ్రత " ++ tempInTelugu ++ " డిగ్రీల సెల్సియస్.";
      "        వాతావరణం " ++ description ++ ".";
      "        తేమ " ++ humidityInTelugu ++ " శాతం.";
      "        గాలి వేగం " ++ windSpeedInTelugu ++ " కిలోమీటర్లు పర్ గంట.";
      "";
      "        రైతు సోదరులకు సూచనలు:";
      "        " ++ tips;
      "      " ].

Definition te_IN : ListenOptions := {| language := "te-IN"; continuous := false |}.

(** Messages that are the same in both revisions. *)
Definition voiceInputUnsupported : string := "మీ బ్రౌజర్ వాయిస్ ఇన్పుట్‌ను సపోర్ట్ చేయదు.".
Definition voiceOutputUnsupported : string := "మీ బ్రౌజర్ వాయిస్ అవుట్‌పుట్‌ను సపోర్ట్ చేయదు.".
Definition voiceOutputProblem : string := "వాయిస్ అవుట్‌పుట్‌లో సమస్య. దయచేసి మళ్లీ ప్రయత్నించండి.".

(** ** The synthesiser's side: callbacks and events

    The three callbacks [speakWeatherInfo] installs are the same in both
    revisions (part_000 lines 121-126, App.tsx lines 109-114). *)
Definition utterance_onstart : M unit := setIsSpeaking true.
Definition utterance_onend : M unit := setIsSpeaking false.
Definition utterance_onerror (event : Exn) : M unit :=
  console_error "Speech synthesis error:" event ;;
  setIsSpeaking false.

Definition whenCallbacks (u : Utterance) (m : M unit) : M unit :=
  if callbacks u then m else ret tt.

(** What the synthesiser does on its own: the head of the queue begins,
    ends or fails, and an utterance removed by [cancel] gets its error
    event. *)
Inductive SynthesiserEvent : Type :=
| UtteranceStart
| UtteranceEnd
| UtteranceError
| InterruptedError.

Definition synthesiser (e : SynthesiserEvent) (w : World) : option World :=
  match e with
  | UtteranceStart =>
      match queue w, started w with
      | u :: _, false =>
          Some (dispatch (whenCallbacks u utterance_onstart)
                  (with_synth (queue w) true (interrupted w) w))
      | _, _ => None
      end
  | UtteranceEnd =>
      match queue w, started w with
      | u :: rest, true =>
          Some (dispatch (whenCallbacks u utterance_onend)
                  (with_synth rest false (interrupted w) w))
      | _, _ => None
      end
  | UtteranceError =>
      match queue w with
      | u :: rest =>
          Some (dispatch
                  (whenCallbacks u (utterance_onerror (Error "synthesis-failed")))
                  (with_synth rest false (interrupted w) w))
      | [] => None
      end
  | InterruptedError =>
      match interrupted w with
      | u :: rest =>
          Some (dispatch
                  (whenCallbacks u (utterance_onerror (Error "interrupted")))
                  (with_synth (queue w) (started w) rest w))
      | [] => None
      end
  end.

(** Start callbacks the synthesiser still owes: one per queued utterance
    that has not begun. *)
Definition startsToCome (w : World) : nat :=
  length (queue w) - (if started w then 1 else 0).

(** * The revision of [src/unnamed/part_000] *)

Module Part000.

Definition locationNotFound : string := "స్థలం కనబడలేదు. దయచేసి మళ్లీ ప్రయత్నించండి.".
Definition noSpecialAdvice : string := "రైతులకు ప్రత్యేక సూచనలు లేవు.".
Definition noAdvice : string := "రైతులకు సూచనలు లేవు.".

Section Handlers.
Context `{Imports}.

(** Lines 83-86. *)
Definition stopListening : M unit :=
  setIsListening false ;;
  SpeechRecognition_stopListening.

(** Lines 73-81. *)
Definition startListening : M unit :=
  fun w =>
    if negb (browserSupportsSpeechRecognition w)
    then setError (Some voiceInputUnsupported) w
    else (setIsListening true ;;
          resetTranscript ;;
          SpeechRecognition_startListening te_IN) w.

(** Lines 88-133. *)
Definition speakWeatherInfo (data : WeatherData) (tips : string) : M unit :=
  supported <- speechSynthesis_in_window ;;
  if supported then
    speechSynthesis_cancel ;;
    try_catch
      (let locationText :=
         if location data =? "" then ""
         else location data ++ " వాతావరణ వివరాలు." in
       let tempInTelugu := numberToTelugu (Math_round (temperature data)) in
       let humidityInTelugu := numberToTelugu (Math_round (humidity data)) in
       let windSpeedInTelugu := numberToTelugu (Math_round (windSpeed data)) in
       let description := weatherDescriptionInTelugu (weatherDesc data) in
       let text := speechText locationText tempInTelugu
                     (JS.toString description) humidityInTelugu
                     windSpeedInTelugu tips in
       console_log "Speaking Text:" text ;;
       utterance <- new_SpeechSynthesisUtterance text ;;
       let utterance := set_callbacks (set_lang "te-IN" utterance) in
       speechSynthesis_speak utterance)
      (fun err =>
         console_error "Error in speech synthesis:" err ;;
         setError (Some voiceOutputProblem))
  else
    setError (Some voiceOutputUnsupported).

(** Lines 135-141. *)
Definition speakErrorMessage : M unit :=
  supported <- speechSynthesis_in_window ;;
  if supported then
    errorMessage <- new_SpeechSynthesisUtterance locationNotFound ;;
    let errorMessage := set_lang "te-IN" errorMessage in
    speechSynthesis_speak errorMessage
  else ret tt.

(** Lines 50-71, with both promises settled as [getCoordinates] and
    [getWeatherData] say, and with no other handler running while the
    function waits at its two [await]s.  What this run says of a slot
    the function writes in its last segment (after the second [await],
    or in [catch]) is what the source does in every schedule; what it
    says of a slot written only before the first [await] is what the
    source does when nothing else writes that slot in between.  The
    event loop below runs the same lines cut at the [await]s. *)
Definition handleLocationSubmit (place : string) : M unit :=
  try_catch
    (setError None ;;
     setAgricultureTips None ;;
     coordinates <- await (getCoordinates place) ;;
     data <- await (getWeatherData coordinates place) ;;
     match data with
     | None => throw (Error "Weather data not found")
     | Some data =>
         setWeatherData (Some data) ;;
         let suggestions :=
           if getAgricultureSuggestions data =? "" then noSpecialAdvice
           else getAgricultureSuggestions data in
         console_log "Agriculture Tips Retrieved:" suggestions ;;
         setAgricultureTips (Some suggestions) ;;
         speakWeatherInfo data suggestions
     end)
    (fun err =>
       setError (Some locationNotFound) ;;
       console_error "Error fetching weather data:" err ;;
       speakErrorMessage).

(** Lines 39-45. *)
Definition handleVisibilityChange : M unit :=
  hidden <- document_hidden ;;
  if hidden then
    speechSynthesis_cancel ;;
    setIsSpeaking false
  else ret tt.

(** *** The same function, cut at its two [await]s

    Between the call of a promise and its settling other handlers run;
    the suspended call waits among the lookups in flight. *)
Definition suspend (l : Lookup) : M unit :=
  fun w => (Normal tt, with_lookups (lookups w ++ [l]) w).

Definition catchBlock (err : Exn) : M unit :=
  setError (Some locationNotFound) ;;
  console_error "Error fetching weather data:" err ;;
  speakErrorMessage.

(** Lines 51-54: up to [await getCoordinates(location)]. *)
Definition handleLocationSubmit_call (place : string) : M unit :=
  try_catch
    (setError None ;;
     setAgricultureTips None ;;
     suspend (AwaitingCoordinates place))
    catchBlock.

(** Lines 54-55: from the first [await] to the second. *)
Definition handleLocationSubmit_coordinates (place : string)
    (settled : Outcome Coordinates) : M unit :=
  try_catch
    (coordinates <- await settled ;;
     suspend (AwaitingWeather coordinates place))
    catchBlock.

(** Lines 55-70: from the second [await] to the end. *)
Definition handleLocationSubmit_weather
    (settled : Outcome (option WeatherData)) : M unit :=
  try_catch
    (data <- await settled ;;
     match data with
     | None => throw (Error "Weather data not found")
     | Some data =>
         setWeatherData (Some data) ;;
         let suggestions :=
           if getAgricultureSuggestions data =? "" then noSpecialAdvice
           else getAgricultureSuggestions data in
         console_log "Agriculture Tips Retrieved:" suggestions ;;
         setAgricultureTips (Some suggestions) ;;
         speakWeatherInfo data suggestions
     end)
    catchBlock.

(** The effect on [transcript], lines 32-37, run after the library has
    delivered it; the lookup it starts runs up to its first [await]. *)
Definition transcriptEffect : M unit :=
  fun w =>
    if transcript w =? "" then ret tt w
    else (stopListening ;;
          handleLocationSubmit_call (transcript w)) w.

(** The round button, line 153. *)
Definition micButton_onClick : M unit :=
  fun w => if isListening (view w) then stopListening w
           else startListening w.

(** The replay button, line 185; it is rendered only while a reading
    is shown. *)
Definition replayButton_onClick (shown : WeatherData) : M unit :=
  fun w =>
    speakWeatherInfo shown
      (match agricultureTips (view w) with
       | Some tips => if tips =? "" then noAdvice else tips
       | None => noAdvice
       end) w.

(** *** The event loop *)

Inductive Event : Type :=
| MicPress
| ReplayPress
| TranscriptArrives (t : string)
| CoordinatesSettle (n : nat) (settled : Outcome Coordinates)
| WeatherSettle (n : nat) (settled : Outcome (option WeatherData))
| VisibilityChange (hidden : bool)
| Synthesiser (e : SynthesiserEvent).

Fixpoint remove_nth {A : Type} (n : nat) (l : list A) : list A :=
  match n, l with
  | _, [] => []
  | O, _ :: rest => rest
  | S n', x :: rest => x :: remove_nth n' rest
  end.

(** One turn of the event loop; [None] when the event cannot occur
    in [w]. *)
Definition step (e : Event) (w : World) : option World :=
  match e with
  | MicPress => Some (dispatch micButton_onClick w)
  | ReplayPress =>
      match weatherData (view w) with
      | Some shown => Some (dispatch (replayButton_onClick shown) w)
      | None => None
      end
  | TranscriptArrives t =>
      if t =? transcript w then None
      else Some (dispatch transcriptEffect
                   (with_recognition t (recognizing w) w))
  | CoordinatesSettle n settled =>
      match nth_error (lookups w) n with
      | Some (AwaitingCoordinates place) =>
          Some (dispatch (handleLocationSubmit_coordinates place settled)
                  (with_lookups (remove_nth n (lookups w)) w))
      | _ => None
      end
  | WeatherSettle n settled =>
      match nth_error (lookups w) n with
      | Some (AwaitingWeather _ _) =>
          Some (dispatch (handleLocationSubmit_weather settled)
                  (with_lookups (remove_nth n (lookups w)) w))
      | _ => None
      end
  | VisibilityChange hidden =>
      Some (dispatch handleVisibilityChange (with_hidden hidden w))
  | Synthesiser e => synthesiser e w
  end.

Fixpoint run (trace : list Event) (w : World) : option World :=
  match trace with
  | [] => Some w
  | e :: rest =>
      match step e w with
      | Some w' => run rest w'
      | None => None
      end
  end.

(** *** The utterances the statements below speak of *)

(** What line 61 passes on as advice. *)
Definition advice (data : WeatherData) : string :=
  if getAgricultureSuggestions data =? "" then noSpecialAdvice
  else getAgricultureSuggestions data.

(** The weather utterance: the template filled with the number words of
    the rounded temperature, humidity and wind speed, the translated
    description and the advice; language Telugu; the three callbacks. *)
Definition weatherUtterance (data : WeatherData) (tips : string) : Utterance :=
  {| text :=
       speechText
         (if location data =? "" then ""
          else location data ++ " వాతావరణ వివరాలు.")
         (numberToTelugu (Math_round (temperature data)))
         (JS.toString (weatherDescriptionInTelugu (weatherDesc data)))
         (numberToTelugu (Math_round (humidity data)))
         (numberToTelugu (Math_round (windSpeed data)))
         tips;
     lang := "te-IN";
     callbacks := true |}.

(** The error utterance: the message itself, in Telugu, no callback. *)
Definition errorUtterance : Utterance :=
  {| text := locationNotFound; lang := "te-IN"; callbacks := false |}.

Definition reachable (w : World) : Prop :=
  exists synthesis recognition trace,
    run trace (initialWorld synthesis recognition) = Some w.

(** *** Discipline

    The controller does not keep listening and speaking apart; a user
    can.  A world is quiet when nothing is being said, no weather
    utterance waits in the queue and no lookup is in flight. *)
Definition quiet (w : World) : bool :=
  negb (isSpeaking (view w))
  && forallb (fun u => negb (callbacks u)) (queue w)
  && match lookups w with [] => true | _ :: _ => false end.

(** The mic is pressed to start listening only in a quiet world, and
    replay only while not listening. *)
Definition allowed (e : Event) (w : World) : bool :=
  match e with
  | MicPress => isListening (view w) || quiet w
  | ReplayPress => negb (isListening (view w))
  | _ => true
  end.

Fixpoint disciplined (trace : list Event) (w : World) : bool :=
  match trace with
  | [] => true
  | e :: rest =>
      allowed e w &&
      match step e w with
      | Some w' => disciplined rest w'
      | None => false
      end
  end.

End Handlers.

End Part000.

(** * The revision of [src/App.tsx] *)

Module AppTsx.

Definition locationNotFound : string := "స్థలం కనుగొనబడలేదు. దయచేసి మళ్లీ ప్రయత్నించండి.".
Definition voiceInputProblem : string := "వాయిస్ ఇన్పుట్ ప్రారంభించడంలో సమస్య. దయచేసి మళ్లీ ప్రయత్నించండి.".

Section Handlers.
Context `{Imports}.

(** Lines 73-80. *)
Definition stopListening : M unit :=
  try_catch
    (setIsListening false ;;
     SpeechRecognition_stopListening)
    (fun err => console_error "Error stopping speech recognition:" err).

(** Lines 55-71. *)
Definition startListening : M unit :=
  try_catch
    (fun w =>
       if negb (browserSupportsSpeechRecognition w)
       then setError (Some voiceInputUnsupported) w
       else (setIsListening true ;;
             resetTranscript ;;
             SpeechRecognition_startListening te_IN) w)
    (fun err =>
       console_error "Error starting speech recognition:" err ;;
       setError (Some voiceInputProblem)).

(** Lines 82-124.  [isSpeaking] is the value the closure captured
    when it was created (the dependency list is [[isSpeaking]]), not
    a read of the slot.  With no reading ([null]) the first property
    access of the [try] block throws. *)
Definition speakWeatherInfo (isSpeaking : bool) (data : option WeatherData)
    : M unit :=
  if isSpeaking then
    speechSynthesis_cancel ;;
    setIsSpeaking false
  else
    try_catch
      (match data with
       | None => throw (TypeError "Cannot read properties of null")
       | Some data =>
           let suggestions := getAgricultureSuggestions data in
           let tempInTelugu := numberToTelugu (Math_round (temperature data)) in
           let humidityInTelugu := numberToTelugu (Math_round (humidity data)) in
           let windSpeedInTelugu := numberToTelugu (Math_round (windSpeed data)) in
           let description := weatherDescriptionInTelugu (weatherDesc data) in
           let text := speechText (location data ++ " వాతావరణ వివరాలు.")
                         tempInTelugu (JS.toString description)
                         humidityInTelugu windSpeedInTelugu suggestions in
           utterance <- new_SpeechSynthesisUtterance text ;;
           let utterance := set_callbacks (set_lang "te-IN" utterance) in
           supported <- speechSynthesis_in_window ;;
           if supported then speechSynthesis_speak utterance
           else setError (Some voiceOutputUnsupported)
       end)
      (fun err =>
         console_error "Error in speech synthesis:" err ;;
         setError (Some voiceOutputProblem)).

(** Lines 42-53.  The callback has an empty dependency list, so the
    [speakWeatherInfo] it calls is the closure of the first render,
    in which [isSpeaking] is [false].  Both promises settle as
    [getCoordinates] and [getWeatherData] say and no other handler runs
    in between: only what the last segment writes is stated of this
    run. *)
Definition handleLocationSubmit (place : string) : M unit :=
  try_catch
    (setError None ;;
     coordinates <- await (getCoordinates place) ;;
     data <- await (getWeatherData coordinates place) ;;
     setWeatherData data ;;
     speakWeatherInfo false data)
    (fun err =>
       setError (Some locationNotFound) ;;
       console_error "Error fetching weather data:" err).

(** The effect on [transcript], lines 36-40. *)
Definition transcriptEffect : M unit :=
  fun w =>
    if transcript w =? "" then ret tt w
    else handleLocationSubmit (transcript w) w.

(** The round button, line 138. *)
Definition micButton_onClick : M unit :=
  fun w => if isListening (view w) then stopListening w
           else startListening w.

(** The replay button, line 178: the closure of the current render,
    which sees the current [isSpeaking]. *)
Definition replayButton_onClick : M unit :=
  fun w =>
    match weatherData (view w) with
    | Some shown => speakWeatherInfo (isSpeaking (view w)) (Some shown) w
    | None => ret tt w
    end.

End Handlers.

End AppTsx.

(** * A concrete environment

    The example of the specification: the place "Hyderabad" resolves and
    its reading is 31 degrees, 60 percent, 10 km/h, clear sky; no other
    place resolves.  Number words are given for the three numbers of the
    example, on which rounding changes nothing. *)

Definition hyderabad : Coordinates := {| lat := 17.5%float; lon := 78.5%float |}.

Definition hyderabadReading : WeatherData :=
  {| location := "Hyderabad"; temperature := 31%float; humidity := 60%float;
     windSpeed := 10%float; weatherDesc := "clear sky" |}.

Definition sampleImports : Imports :=
  {| Math_round := fun x => x;
     numberToTelugu := fun x =>
       if PrimFloat.eqb x 31 then "ముప్పై ఒకటి"
       else if PrimFloat.eqb x 60 then "అరవై"
       else if PrimFloat.eqb x 10 then "పది"
       else "";
     getAgricultureSuggestions := fun _ => "";
     toLowerCase := JS.asciiToLowerCase;
     getCoordinates := fun place =>
       if place =? "Hyderabad" then Fulfilled hyderabad
       else Rejected (Error "Location not found");
     getWeatherData := fun _ place =>
       Fulfilled (Some {| location := place; temperature := 31%float;
                          humidity := 60%float; windSpeed := 10%float;
                          weatherDesc := "clear sky" |}) |}.

(** A reading whose description is a word no table key matches. *)
Definition oddReading : WeatherData :=
  {| location := "Hyderabad"; temperature := 31%float; humidity := 60%float;
     windSpeed := 10%float; weatherDesc := "Constructor" |}.


(** * Properties of worlds the statements below speak of *)

(** Nothing is queued, interrupted or flagged as speaking in a browser
    without speech synthesis. *)
Definition synthesisConsistent (w : World) : Prop :=
  speechSynthesisInWindow w = false ->
  queue w = [] /\ interrupted w = [] /\ isSpeaking (view w) = false.

(** Nothing listens in a browser without speech recognition. *)
Definition recognitionConsistent (w : World) : Prop :=
  browserSupportsSpeechRecognition w = false ->
  isListening (view w) = false /\ recognizing w = None.

(** At most one of listening and speaking. *)
Definition exclusive (w : World) : bool :=
  negb (isListening (view w) && isSpeaking (view w)).

(** While listening, the world is quiet. *)
Definition listeningIsQuiet (w : World) : Prop :=
  isListening (view w) = true -> Part000.quiet w = true.

(** * Concrete runs *)

(** The mic is pressed, "Hyderabad" is recognised, both promises
    fulfil, and the utterance begins. *)
Definition speakingTrace : list Part000.Event :=
  [ Part000.MicPress;
    Part000.TranscriptArrives "Hyderabad";
    Part000.CoordinatesSettle 0 (Fulfilled hyderabad);
    Part000.WeatherSettle 0 (Fulfilled (Some hyderabadReading));
    Part000.Synthesiser UtteranceStart ].

Definition orInitial (o : option World) : World :=
  match o with
  | Some w => w
  | None => initialWorld true true
  end.

Definition speakingWorld : World :=
  orInitial (Part000.run (H := sampleImports) speakingTrace
               (initialWorld true true)).

(** The same situation in [src/App.tsx]: the lookup of "Hyderabad" has
    run and its utterance has begun. *)
Definition speakingWorldAppTsx : World :=
  orInitial (synthesiser UtteranceStart
               (after (AppTsx.handleLocationSubmit (H := sampleImports)
                         "Hyderabad")
                      (initialWorld true true))).

(** * Tactics for running handlers *)

Ltac unfold_primitives :=
  unfold after, returns, dispatch, bind, ret, throw, try_catch, await,
    setWeatherData, setAgricultureTips, setIsListening, setError,
    setIsSpeaking, console_log, console_error, speechSynthesis_in_window,
    speechSynthesis_cancel, speechSynthesis_speak,
    new_SpeechSynthesisUtterance, resetTranscript,
    SpeechRecognition_startListening, SpeechRecognition_stopListening,
    document_hidden in *.

(** Cases on the synthesis capability of a world, with the world
    opened into its fields so that every later read sees the case. *)
Ltac case_synthesis w :=
  let v := fresh "v" in
  let synthesis := fresh "synthesis" in
  destruct w as [v synthesis ? ? ? ? ? ? ? ? ?]; simpl in *;
  destruct synthesis; simpl in *.

Ltac unfold_part000 :=
  unfold Part000.step, Part000.micButton_onClick,
    Part000.replayButton_onClick, Part000.transcriptEffect,
    Part000.handleLocationSubmit_call,
    Part000.handleLocationSubmit_coordinates,
    Part000.handleLocationSubmit_weather, Part000.catchBlock,
    Part000.handleVisibilityChange, synthesiser, whenCallbacks,
    utterance_onstart, utterance_onend, utterance_onerror,
    Part000.startListening,
    Part000.stopListening, Part000.speakWeatherInfo,
    Part000.speakErrorMessage, Part000.suspend in *.

(** Splits on every test a step makes, innermost first, until its
    result is explicit. *)
Ltac split_on x :=
  lazymatch x with
  | context [match _ with _ => _ end] => fail
  | _ => first [is_var x; destruct x | destruct x eqn:?]
  end.

Ltac split_step :=
  repeat (simpl in *;
    match goal with
    | H : Some _ = Some _ |- _ => injection H as H; subst
    | H : None = Some _ |- _ => discriminate H
    | H : context [match ?x with _ => _ end] |- _ => split_on x
    | |- context [match ?x with _ => _ end] => split_on x
    end).

Ltac split_conjunctions :=
  repeat match goal with
  | H : _ && _ = true |- _ =>
      let H1 := fresh H in
      let H2 := fresh H in
      apply andb_prop in H as [H1 H2]
  end.

Ltac open_world w :=
  let v := fresh "v" in
  destruct w as [v ? ? ? ? ? ? ? ? ? ?]; destruct v; simpl in *.

(** * The rest of the component *)

(** ** The weather utterance of [src/App.tsx] (lines 96-114) *)

Definition appTsxUtterance `{Imports} (data : WeatherData) : Utterance :=
  {| text :=
       speechText (location data ++ " వాతావరణ వివరాలు.")
         (numberToTelugu (Math_round (temperature data)))
         (JS.toString (weatherDescriptionInTelugu (weatherDesc data)))
         (numberToTelugu (Math_round (humidity data)))
         (numberToTelugu (Math_round (windSpeed data)))
         (getAgricultureSuggestions data);
     lang := "te-IN";
     callbacks := true |}.

(** ** More properties of worlds *)

(** The advice on view is the advice of the reading on view. *)
Definition tipsMatchReading `{Imports} (w : World) : Prop :=
  forall tips, agricultureTips (view w) = Some tips ->
  exists data, weatherData (view w) = Some data /\ tips = Part000.advice data.

(** Every utterance the synthesiser holds, queued or cancelled, is
    tagged Telugu. *)
Definition allTelugu (w : World) : bool :=
  forallb (fun u => lang u =? "te-IN") (queue w)
  && forallb (fun u => lang u =? "te-IN") (interrupted w).

(** The queued utterances that carry the callbacks of
    [speakWeatherInfo]. *)
Definition weatherUtterancesQueued (w : World) : nat :=
  length (filter callbacks (queue w)).

(** What is queued without callbacks is the error utterance. *)
Definition silentAreErrors (w : World) : Prop :=
  forall u, In u (queue w) -> callbacks u = false ->
  u = Part000.errorUtterance.

(** ** More concrete runs *)

(** The mic is pressed, "Hyderabad" is recognised and geocoded: its
    lookup waits for the weather. *)
Definition awaitingWeatherWorld : World :=
  orInitial (Part000.run (H := sampleImports) (firstn 3 speakingTrace)
               (initialWorld true true)).


(** Two lookups overlap: "Atlantis" is recognised, then "Hyderabad";
    the geocoding of "Hyderabad" fulfils, that of "Atlantis" rejects,
    and last the weather of "Hyderabad" arrives. *)
Definition overlappingTrace : list Part000.Event :=
  [ Part000.TranscriptArrives "Atlantis";
    Part000.TranscriptArrives "Hyderabad";
    Part000.CoordinatesSettle 1 (Fulfilled hyderabad);
    Part000.CoordinatesSettle 0 (Rejected (Error "Location not found"));
    Part000.WeatherSettle 0 (Fulfilled (Some hyderabadReading)) ].

(** While the utterance for "Hyderabad" plays, "Atlantis" is recognised
    and its geocoding rejects: the error utterance queues behind. *)
Definition twoQueuedTrace : list Part000.Event :=
  (speakingTrace ++
   [ Part000.TranscriptArrives "Atlantis";
     Part000.CoordinatesSettle 0 (Rejected (Error "Location not found")) ])
  %list.

Definition twoQueuedWorld : World :=
  orInitial (Part000.run (H := sampleImports) twoQueuedTrace
               (initialWorld true true)).

(** The world before the last of these events. *)
Definition beforeLastSettle : World :=
  orInitial (Part000.run (H := sampleImports) (removelast overlappingTrace)
               (initialWorld true true)).

(** A world in which a transcript is on view. *)
Definition heardWorld : World :=
  with_recognition "Hyderabad" (Some te_IN) (initialWorld true true).

(** An environment in which every place resolves and the weather
    service has no reading for it. *)
Definition noDataImports : Imports :=
  {| Math_round := fun x => x;
     numberToTelugu := fun _ => "";
     getAgricultureSuggestions := fun _ => "";
     toLowerCase := JS.asciiToLowerCase;
     getCoordinates := fun _ => Fulfilled hyderabad;
     getWeatherData := fun _ _ => Fulfilled None |}.

(** ** One more tactic *)

(** Closes goals that say a test holds of every element of lists built
    by appending. *)
Ltac solve_forallb :=
  repeat first
    [ reflexivity
    | assumption
    | apply andb_true_intro; split
    | rewrite forallb_app
    | match goal with
      | E : forallb _ ?l = true |- context [forallb _ ?l] => rewrite E
      end
    | progress simpl ].

(** ** Worlds of browsers that lack a capability *)

(** "Hyderabad" looked up in a browser that cannot speak. *)
Definition muteWorld : World :=
  orInitial (Part000.run (H := sampleImports) (removelast speakingTrace)
               (initialWorld false true)).

(** The mic pressed in a browser that cannot listen. *)
Definition deafWorld : World :=
  orInitial (Part000.run (H := sampleImports) [Part000.MicPress]
               (initialWorld true false)).

(** * The translation table *)

Section TranslationFacts.
Context `{Imports}.

(** The table has no empty translation, so a hit is never discarded by
    [||]. *)
Lemma table_values_truthy (k v : string) :
  In (k, v) weatherDescriptionsTelugu -> JS.truthy (JS.Str v) = true.
Proof.
  simpl. intros Hin.
  repeat (destruct Hin as [[= <- <-]|Hin]; [reflexivity|]).
  contradiction.
Qed.

(** Keys are pairwise distinct: a listed pair is the one [own] finds. *)
Lemma table_own (k v : string) :
  In (k, v) weatherDescriptionsTelugu ->
  JS.own weatherDescriptionsTelugu k = Some v.
Proof.
  simpl. intros Hin.
  repeat (destruct Hin as [[= <- <-]|Hin]; [reflexivity|]).
  contradiction.
Qed.

(** Supported keys, whatever the casing of the description. *)
Lemma translation_of_supported (s k v : string) :
  In (k, v) weatherDescriptionsTelugu ->
  toLowerCase s = k ->
  weatherDescriptionInTelugu s = JS.Str v.
Proof.
  intros Hin Hlow. unfold weatherDescriptionInTelugu, JS.get.
  rewrite Hlow, (table_own _ _ Hin). unfold JS.or.
  now rewrite (table_values_truthy _ _ Hin).
Qed.

(** Descriptions whose lower-case form names neither a key nor a
    member of [Object.prototype] pass through unchanged. *)
Lemma translation_of_unknown (s : string) :
  JS.own weatherDescriptionsTelugu (toLowerCase s) = None ->
  JS.inherited JS.Object_prototype (toLowerCase s) = JS.Undefined ->
  weatherDescriptionInTelugu s = JS.Str s.
Proof.
  intros Hown Hinh. unfold weatherDescriptionInTelugu, JS.get.
  now rewrite Hown, Hinh.
Qed.

End TranslationFacts.

(** The example of the specification: "clear sky" is shown and spoken
    as its Telugu string, whatever its casing. *)
Lemma clear_sky_example :
  weatherDescriptionInTelugu (H := sampleImports) "clear sky"
    = JS.Str "పారదర్శక ఆకాశం" /\
  weatherDescriptionInTelugu (H := sampleImports) "Clear Sky"
    = JS.Str "పారదర్శక ఆకాశం" /\
  weatherDescriptionInTelugu (H := sampleImports) "haze" = JS.Str "haze".
Proof. repeat split; reflexivity. Qed.

(** C4.  On the description "constructor", which is none of the nine
    keys, the translation expression does not return the description: the
    property read finds [Object.prototype.constructor], a function, which
    is truthy, so the fallback of [||] is not taken. *)
Theorem translation_of_constructor :
  JS.own weatherDescriptionsTelugu "constructor" = None /\
  weatherDescriptionInTelugu (H := sampleImports) "constructor"
    = JS.NativeFunction "Object" /\
  weatherDescriptionInTelugu (H := sampleImports) "constructor"
    <> JS.Str "constructor".
Proof.
  split; [reflexivity|]. split; [reflexivity|]. discriminate.
Qed.

(** C10.  The description "Constructor" is lower-cased to "constructor",
    which is not a key of the table, yet what comes back is not the
    original string with its casing: it is the inherited function, and
    the spoken sentence carries its source text. *)
Theorem translation_of_capitalised_constructor :
  toLowerCase (Imports := sampleImports) "Constructor" = "constructor" /\
  JS.own weatherDescriptionsTelugu "constructor" = None /\
  weatherDescriptionInTelugu (H := sampleImports) "Constructor"
    = JS.NativeFunction "Object" /\
  JS.toString (weatherDescriptionInTelugu (H := sampleImports) "Constructor")
    = "function Object() { [native code] }".
Proof. repeat split; reflexivity. Qed.

(** What is then spoken for a reading described as "Constructor". *)
Lemma odd_reading_spoken (tips : string) :
  text (Part000.weatherUtterance (H := sampleImports) oddReading tips)
  = speechText "Hyderabad వాతావరణ వివరాలు." "ముప్పై ఒకటి"
      "function Object() { [native code] }" "అరవై" "పది" tips.
Proof. reflexivity. Qed.

(** * Lookups that fail *)

Section FailingLookups.
Context `{Imports}.

Lemma part000_speakErrorMessage_view (w : World) :
  view (after Part000.speakErrorMessage w) = view w /\
  returns Part000.speakErrorMessage w = true.
Proof.
  unfold Part000.speakErrorMessage. unfold_primitives. simpl.
  case_synthesis w; split; reflexivity.
Qed.

Lemma part000_catch_block (err : Exn) (w : World) :
  let w' := after (Part000.catchBlock err) w in
  returns (Part000.catchBlock err) w = true /\
  error (view w') = Some Part000.locationNotFound /\
  weatherData (view w') = weatherData (view w) /\
  isListening (view w') = isListening (view w) /\
  isSpeaking (view w') = isSpeaking (view w).
Proof.
  unfold Part000.catchBlock, Part000.speakErrorMessage. unfold_primitives.
  simpl. case_synthesis w; repeat split; reflexivity.
Qed.

Lemma part000_failing_lookup (place : string) (w : World) :
  lookupFails place = true ->
  let w' := after (Part000.handleLocationSubmit place) w in
  returns (Part000.handleLocationSubmit place) w = true /\
  error (view w') = Some Part000.locationNotFound /\
  weatherData (view w') = weatherData (view w).
Proof.
  unfold lookupFails, lookup, Part000.handleLocationSubmit,
    Part000.speakErrorMessage.
  unfold_primitives. simpl.
  destruct (getCoordinates place) as [c|e]; simpl.
  - destruct (getWeatherData c place) as [d|e]; simpl; [discriminate|].
    intros _. case_synthesis w; repeat split; reflexivity.
  - intros _. case_synthesis w; repeat split; reflexivity.
Qed.

Lemma appTsx_failing_lookup (place : string) (w : World) :
  lookupFails place = true ->
  let w' := after (AppTsx.handleLocationSubmit place) w in
  returns (AppTsx.handleLocationSubmit place) w = true /\
  error (view w') = Some AppTsx.locationNotFound /\
  weatherData (view w') = weatherData (view w) /\
  queue w' = queue w.
Proof.
  unfold lookupFails, lookup, AppTsx.handleLocationSubmit.
  unfold_primitives. simpl.
  destruct (getCoordinates place) as [c|e]; simpl.
  - destruct (getWeatherData c place) as [d|e]; simpl; [discriminate|].
    intros _. repeat split; reflexivity.
  - intros _. repeat split; reflexivity.
Qed.

(** In part_000 a weather fetch that fulfils with no reading ends like a
    rejection. *)
Lemma part000_no_data_lookup (place : string) (w : World) :
  lookup place = Fulfilled None ->
  let w' := after (Part000.handleLocationSubmit place) w in
  returns (Part000.handleLocationSubmit place) w = true /\
  error (view w') = Some Part000.locationNotFound /\
  weatherData (view w') = weatherData (view w).
Proof.
  unfold lookup, Part000.handleLocationSubmit, Part000.speakErrorMessage.
  unfold_primitives. simpl.
  destruct (getCoordinates place) as [c|e]; simpl; [|discriminate].
  intros ->. simpl. case_synthesis w; repeat split; reflexivity.
Qed.

End FailingLookups.

(** C2.  When geocoding or the weather fetch rejects, the lookup of
    either revision returns with its "location not found" message in the
    error slot and the weather-reading slot as it was. *)
Theorem failing_lookup_sets_error_keeps_reading
    (I : Imports) (place : string) (w : World) :
  lookupFails place = true ->
  (returns (Part000.handleLocationSubmit place) w = true /\
   error (view (after (Part000.handleLocationSubmit place) w))
     = Some Part000.locationNotFound /\
   weatherData (view (after (Part000.handleLocationSubmit place) w))
     = weatherData (view w)) /\
  (returns (AppTsx.handleLocationSubmit place) w = true /\
   error (view (after (AppTsx.handleLocationSubmit place) w))
     = Some AppTsx.locationNotFound /\
   weatherData (view (after (AppTsx.handleLocationSubmit place) w))
     = weatherData (view w)).
Proof.
  intros Hfail. split.
  - apply (part000_failing_lookup place w Hfail).
  - destruct (appTsx_failing_lookup place w Hfail) as (Hr & He & Hw & _).
    now repeat split.
Qed.

Lemma failing_lookup_witness :
  lookupFails (H := sampleImports) "Atlantis" = true /\
  error (view (after (Part000.handleLocationSubmit (H := sampleImports)
                        "Atlantis") (initialWorld true true)))
    = Some Part000.locationNotFound /\
  weatherData (view (after (Part000.handleLocationSubmit (H := sampleImports)
                        "Atlantis") (initialWorld true true))) = None.
Proof.
  split; [reflexivity|].
  destruct (failing_lookup_sets_error_keeps_reading sampleImports "Atlantis"
              (initialWorld true true) eq_refl) as [(_ & He & Hw) _].
  split; [exact He | exact Hw].
Defined.

(** * What [speakWeatherInfo] does *)

Section SpeakWeatherInfo.
Context `{Imports}.

(** What [speakWeatherInfo] of part_000 does, in full. *)
Lemma part000_speakWeatherInfo_spec (data : WeatherData) (tips : string)
    (w : World) :
  let w' := after (Part000.speakWeatherInfo data tips) w in
  returns (Part000.speakWeatherInfo data tips) w = true /\
  weatherData (view w') = weatherData (view w) /\
  agricultureTips (view w') = agricultureTips (view w) /\
  isListening (view w') = isListening (view w) /\
  isSpeaking (view w') = isSpeaking (view w) /\
  lookups w' = lookups w /\
  if speechSynthesisInWindow w
  then error (view w') = error (view w) /\
       queue w' = [Part000.weatherUtterance data tips] /\
       started w' = false /\
       interrupted w' = (interrupted w ++ queue w)%list
  else error (view w') = Some voiceOutputUnsupported /\
       queue w' = queue w /\
       started w' = started w /\
       interrupted w' = interrupted w.
Proof.
  unfold Part000.speakWeatherInfo, Part000.weatherUtterance.
  unfold_primitives. simpl.
  case_synthesis w; repeat split; reflexivity.
Qed.

End SpeakWeatherInfo.

(** * The spoken error *)

Section SpokenError.
Context `{Imports}.

Lemma part000_failing_lookup_speech (place : string) (w : World) :
  lookupFails place = true ->
  let w' := after (Part000.handleLocationSubmit place) w in
  queue w' = (if speechSynthesisInWindow w
              then queue w ++ [Part000.errorUtterance]
              else queue w)%list /\
  started w' = started w /\
  isSpeaking (view w') = isSpeaking (view w).
Proof.
  unfold lookupFails, lookup, Part000.handleLocationSubmit,
    Part000.speakErrorMessage, Part000.errorUtterance.
  unfold_primitives. simpl.
  destruct (getCoordinates place) as [c|e]; simpl.
  - destruct (getWeatherData c place) as [d|e]; simpl; [discriminate|].
    intros _. case_synthesis w; repeat split; reflexivity.
  - intros _. case_synthesis w; repeat split; reflexivity.
Qed.

End SpokenError.

(** C3, as corrected.  When a lookup fails, part_000 sets its "location
    not found" message and, in a browser with speech synthesis, appends
    one utterance to the synthesiser's queue: that same message, in
    Telugu, with no callback; in a browser without speech synthesis it
    speaks nothing.  The revision of [src/App.tsx] sets its message and
    speaks nothing. *)
Theorem failing_lookup_speaks_error
    (I : Imports) (place : string) (w : World) :
  lookupFails place = true ->
  (error (view (after (Part000.handleLocationSubmit place) w))
     = Some Part000.locationNotFound /\
   queue (after (Part000.handleLocationSubmit place) w)
     = (if speechSynthesisInWindow w
        then queue w ++ [Part000.errorUtterance]
        else queue w)%list) /\
  (error (view (after (AppTsx.handleLocationSubmit place) w))
     = Some AppTsx.locationNotFound /\
   queue (after (AppTsx.handleLocationSubmit place) w) = queue w).
Proof.
  intros Hfail. split.
  - destruct (part000_failing_lookup place w Hfail) as (_ & He & _).
    destruct (part000_failing_lookup_speech place w Hfail) as (Hq & _).
    now split.
  - destruct (appTsx_failing_lookup place w Hfail) as (_ & He & _ & Hq).
    now split.
Qed.

Lemma failing_lookup_speaks_error_witness :
  lookupFails (H := sampleImports) "Atlantis" = true /\
  queue (after (Part000.handleLocationSubmit (H := sampleImports) "Atlantis")
           (initialWorld true true))
    = [Part000.errorUtterance].
Proof.
  split; [reflexivity|].
  exact (proj2 (proj1 (failing_lookup_speaks_error sampleImports "Atlantis"
                         (initialWorld true true) eq_refl))).
Defined.

(** C3, the claim as stated fails: the lookup of "Atlantis" fails, and
    part_000 in a browser without speech synthesis, like [src/App.tsx]
    in any browser, sets the error and leaves the synthesiser's queue
    empty. *)
Lemma failing_lookup_unspoken :
  lookupFails (H := sampleImports) "Atlantis" = true /\
  error (view (after (Part000.handleLocationSubmit (H := sampleImports)
                        "Atlantis") (initialWorld false true)))
    = Some Part000.locationNotFound /\
  queue (after (Part000.handleLocationSubmit (H := sampleImports) "Atlantis")
           (initialWorld false true)) = [] /\
  error (view (after (AppTsx.handleLocationSubmit (H := sampleImports)
                        "Atlantis") (initialWorld true true)))
    = Some AppTsx.locationNotFound /\
  queue (after (AppTsx.handleLocationSubmit (H := sampleImports) "Atlantis")
           (initialWorld true true)) = [].
Proof. repeat split; reflexivity. Qed.

(** * Transcripts and the listening flag *)

Section Transcripts.
Context `{Imports}.

Lemma appTsx_speakWeatherInfo_keeps_listening (captured : bool)
    (data : option WeatherData) (w : World) :
  isListening (view (after (AppTsx.speakWeatherInfo captured data) w))
    = isListening (view w).
Proof.
  unfold AppTsx.speakWeatherInfo. unfold_primitives.
  destruct captured, data as [d|]; simpl; case_synthesis w; reflexivity.
Qed.

Lemma appTsx_lookup_keeps_listening (place : string) (w : World) :
  isListening (view (after (AppTsx.handleLocationSubmit place) w))
    = isListening (view w).
Proof.
  unfold AppTsx.handleLocationSubmit, AppTsx.speakWeatherInfo.
  unfold_primitives. simpl.
  destruct (getCoordinates place) as [c|e]; simpl; [|reflexivity].
  destruct (getWeatherData c place) as [[d|]|e]; simpl;
    try reflexivity; case_synthesis w; reflexivity.
Qed.

(** In part_000 a transcript that is not empty turns listening off,
    stops the recogniser, and only then starts the lookup. *)
Lemma part000_transcript_stops_listening (w : World) :
  transcript w <> "" ->
  let w' := after Part000.transcriptEffect w in
  returns Part000.transcriptEffect w = true /\
  isListening (view w') = false /\
  recognizing w' = None /\
  lookups w' = (lookups w ++ [AwaitingCoordinates (transcript w)])%list.
Proof.
  intros Hne. unfold Part000.transcriptEffect, Part000.stopListening,
    Part000.handleLocationSubmit_call, Part000.suspend.
  unfold_primitives. simpl.
  destruct (String.eqb_spec (transcript w) "") as [E|_]; [contradiction|].
  simpl. repeat split; reflexivity.
Qed.

End Transcripts.

(** The mic has been pressed and the recogniser delivers "Hyderabad": in
    [src/App.tsx] the reading is shown and the flag still says
    listening; in part_000 the flag is off. *)
Lemma hyderabad_transcript_and_listening :
  isListening (view (after (AppTsx.transcriptEffect (H := sampleImports))
     (with_recognition "Hyderabad" (Some te_IN)
        (after AppTsx.micButton_onClick (initialWorld true true))))) = true /\
  weatherData (view (after (AppTsx.transcriptEffect (H := sampleImports))
     (with_recognition "Hyderabad" (Some te_IN)
        (after AppTsx.micButton_onClick (initialWorld true true)))))
    = Some hyderabadReading /\
  isListening (view (after Part000.transcriptEffect
     (with_recognition "Hyderabad" (Some te_IN)
        (after Part000.micButton_onClick (initialWorld true true))))) = false.
Proof. vm_compute. repeat split; reflexivity. Qed.

(** C7.  In [src/App.tsx] the effect that runs when a transcript arrives
    never writes the listening flag: whatever the transcript and however
    the lookup ends, the flag is after the effect what it was before, so
    a controller that was listening stays listening. *)
Theorem appTsx_transcript_keeps_listening (I : Imports) (w : World) :
  isListening (view (after AppTsx.transcriptEffect w)) = isListening (view w).
Proof.
  unfold AppTsx.transcriptEffect, after.
  destruct (transcript w =? ""); [reflexivity|].
  apply appTsx_lookup_keeps_listening.
Qed.

(** * What every reachable world of part_000 satisfies *)

Section Reachability.
Context `{Imports}.

Lemma step_capabilities (e : Part000.Event) (w w' : World) :
  Part000.step e w = Some w' ->
  speechSynthesisInWindow w' = speechSynthesisInWindow w /\
  browserSupportsSpeechRecognition w' = browserSupportsSpeechRecognition w.
Proof.
  open_world w.
  destruct e as [| | | | | |[]]; unfold_part000; unfold_primitives;
    intros Hstep; split_step; split; reflexivity.
Qed.

Lemma step_synthesisConsistent (e : Part000.Event) (w w' : World) :
  Part000.step e w = Some w' ->
  synthesisConsistent w -> synthesisConsistent w'.
Proof.
  unfold synthesisConsistent. open_world w.
  destruct e as [| | | | | |[]]; unfold_part000; unfold_primitives;
    intros Hstep Hinv; split_step;
    intros Hsyn; simpl in Hsyn; try discriminate Hsyn;
    specialize (Hinv Hsyn); destruct Hinv as (Hq & Hi & Hs);
    try discriminate; subst; simpl in *;
    repeat split; try reflexivity; try assumption; try discriminate.
Qed.

(** Whatever ran between the call and the settling, a promise that
    rejects ends the lookup with the message set and the reading slot
    untouched. *)
Lemma rejection_by_turns (n : nat) (reason : Exn) (w w' : World) :
  Part000.step (Part000.CoordinatesSettle n (Rejected reason)) w = Some w' \/
  Part000.step (Part000.WeatherSettle n (Rejected reason)) w = Some w' ->
  error (view w') = Some Part000.locationNotFound /\
  weatherData (view w') = weatherData (view w).
Proof.
  open_world w.
  intros [Hstep|Hstep]; revert Hstep; unfold_part000; unfold_primitives;
    intros Hstep; split_step; split; reflexivity.
Qed.

Lemma step_recognitionConsistent (e : Part000.Event) (w w' : World) :
  Part000.step e w = Some w' ->
  recognitionConsistent w -> recognitionConsistent w'.
Proof.
  unfold recognitionConsistent. open_world w.
  destruct e as [| | | | | |[]]; unfold_part000; unfold_primitives;
    intros Hstep Hinv; split_step;
    intros Hrec; simpl in Hrec; try discriminate Hrec;
    specialize (Hinv Hrec); destruct Hinv as (Hl & Hr);
    try discriminate; subst; simpl in *;
    repeat split; try reflexivity; try assumption; try discriminate.
Qed.

(** A property kept by every step holds along every run. *)
Lemma run_invariant (P : World -> Prop) :
  (forall e w w', Part000.step e w = Some w' -> P w -> P w') ->
  forall trace w w', Part000.run trace w = Some w' -> P w -> P w'.
Proof.
  intros Hstep trace.
  induction trace as [|e rest IH]; simpl; intros w w' Hrun Hw.
  - now injection Hrun as <-.
  - destruct (Part000.step e w) as [w1|] eqn:E; [|discriminate].
    apply (IH w1 w' Hrun). exact (Hstep e w w1 E Hw).
Qed.

Lemma reachable_synthesisConsistent (w : World) :
  Part000.reachable w -> synthesisConsistent w.
Proof.
  intros (syn & rec & trace & Hrun).
  apply (run_invariant synthesisConsistent step_synthesisConsistent _ _ _ Hrun).
  intros _. now repeat split.
Qed.

Lemma reachable_recognitionConsistent (w : World) :
  Part000.reachable w -> recognitionConsistent w.
Proof.
  intros (syn & rec & trace & Hrun).
  apply (run_invariant recognitionConsistent step_recognitionConsistent
           _ _ _ Hrun).
  intros _. now split.
Qed.

(** The speaking flag is only ever on in a browser that can speak. *)
Lemma reachable_speaking_has_synthesis (w : World) :
  Part000.reachable w -> isSpeaking (view w) = true ->
  speechSynthesisInWindow w = true.
Proof.
  intros Hreach Hspeaking.
  destruct (speechSynthesisInWindow w) eqn:E; [reflexivity|].
  destruct (reachable_synthesisConsistent w Hreach E) as (_ & _ & Hs).
  congruence.
Qed.

Lemma reachable_queue_has_synthesis (w : World) :
  Part000.reachable w -> queue w <> [] ->
  speechSynthesisInWindow w = true.
Proof.
  intros Hreach Hq.
  destruct (speechSynthesisInWindow w) eqn:E; [reflexivity|].
  destruct (reachable_synthesisConsistent w Hreach E) as (Hq' & _).
  contradiction.
Qed.

Lemma part000_visibility_hidden (w : World) :
  speechSynthesisInWindow w = true ->
  let w' := after Part000.handleVisibilityChange (with_hidden true w) in
  returns Part000.handleVisibilityChange (with_hidden true w) = true /\
  Part000.step (Part000.VisibilityChange true) w = Some w' /\
  queue w' = [] /\ started w' = false /\
  interrupted w' = (interrupted w ++ queue w)%list /\
  isSpeaking (view w') = false /\
  isListening (view w') = isListening (view w) /\
  console w' = console w.
Proof.
  open_world w. intros ->.
  unfold_part000. unfold_primitives. simpl.
  repeat split; reflexivity.
Qed.

End Reachability.

(** C6.  In every world part_000 can reach in which the speaking flag is
    on or an utterance is in the synthesiser's queue, the handler of a
    visibility change to hidden returns without throwing, has emptied
    the queue (speech is cancelled) and has turned the speaking flag
    off; the event loop reports no uncaught exception. *)
Theorem visibility_loss_stops_speech (I : Imports) (w : World) :
  Part000.reachable w ->
  isSpeaking (view w) = true \/ queue w <> [] ->
  returns Part000.handleVisibilityChange (with_hidden true w) = true /\
  Part000.step (Part000.VisibilityChange true) w
    = Some (after Part000.handleVisibilityChange (with_hidden true w)) /\
  queue (after Part000.handleVisibilityChange (with_hidden true w)) = [] /\
  started (after Part000.handleVisibilityChange (with_hidden true w)) = false /\
  isSpeaking (view (after Part000.handleVisibilityChange (with_hidden true w)))
    = false /\
  console (after Part000.handleVisibilityChange (with_hidden true w))
    = console w.
Proof.
  intros Hreach Hspeaking.
  assert (Hsyn : speechSynthesisInWindow w = true).
  { destruct Hspeaking as [Hflag|Hqueue].
    - exact (reachable_speaking_has_synthesis w Hreach Hflag).
    - exact (reachable_queue_has_synthesis w Hreach Hqueue). }
  destruct (part000_visibility_hidden w Hsyn)
    as (Hr & Hstep & Hq & Hst & _ & Hs & _ & Hc).
  repeat split; assumption.
Qed.

Lemma speakingWorld_reachable :
  Part000.reachable (H := sampleImports) speakingWorld.
Proof. exists true, true, speakingTrace. vm_compute. reflexivity. Qed.

Lemma visibility_loss_witness :
  isSpeaking (view speakingWorld) = true /\
  queue speakingWorld
    = [Part000.weatherUtterance (H := sampleImports) hyderabadReading
         Part000.noSpecialAdvice] /\
  queue (after (Part000.handleVisibilityChange) (with_hidden true speakingWorld))
    = [] /\
  isSpeaking (view (after (Part000.handleVisibilityChange)
                      (with_hidden true speakingWorld))) = false.
Proof.
  split; [reflexivity|]. split; [reflexivity|].
  destruct (visibility_loss_stops_speech sampleImports speakingWorld
              speakingWorld_reachable (or_introl eq_refl))
    as (_ & _ & Hq & _ & Hs & _).
  split; assumption.
Defined.

(** * Listening and speaking *)

Section Discipline.
Context `{Imports}.

Lemma step_listeningIsQuiet (e : Part000.Event) (w w' : World) :
  Part000.allowed e w = true ->
  Part000.step e w = Some w' ->
  listeningIsQuiet w -> listeningIsQuiet w'.
Proof.
  unfold listeningIsQuiet, Part000.quiet, Part000.allowed. open_world w.
  destruct e as [| | | | | |[]]; unfold_part000; unfold_primitives;
    intros Hallowed Hstep Hinv; split_step;
    intros Hl; simpl in Hl; try discriminate Hl;
    try specialize (Hinv Hl); simpl in *;
    try discriminate; try reflexivity; try assumption;
    try (rewrite Hl in *; discriminate);
    try match goal with
        | E : nth_error [] ?n = Some _ |- _ => destruct n; discriminate E
        end;
    split_conjunctions; rewrite ?forallb_app; simpl;
    repeat (apply andb_true_intro; split);
    try discriminate; try reflexivity; try assumption;
    match goal with
    | E : callbacks ?u = false |- negb (callbacks ?u) = true =>
        rewrite E; reflexivity
    end.
Qed.

Lemma disciplined_run (trace : list Part000.Event) :
  forall w w',
    Part000.disciplined trace w = true ->
    Part000.run trace w = Some w' ->
    listeningIsQuiet w -> listeningIsQuiet w'.
Proof.
  induction trace as [|e rest IH]; simpl; intros w w' Hd Hrun Hw.
  - now injection Hrun as <-.
  - apply andb_prop in Hd as (Ha & Hd).
    destruct (Part000.step e w) as [w1|] eqn:E; [|discriminate].
    apply (IH w1 w' Hd Hrun).
    exact (step_listeningIsQuiet e w w1 Ha E Hw).
Qed.

Lemma listeningIsQuiet_exclusive (w : World) :
  listeningIsQuiet w -> exclusive w = true.
Proof.
  unfold listeningIsQuiet, exclusive, Part000.quiet.
  destruct (isListening (view w)); [|reflexivity].
  intros Hq. specialize (Hq eq_refl).
  destruct (isSpeaking (view w)); [discriminate|reflexivity].
Qed.

(** A mic press never writes the speaking flag, and no event of the
    synthesiser writes the listening flag. *)
Lemma flags_are_independent (w w' : World) :
  (Part000.step Part000.MicPress w = Some w' ->
   isSpeaking (view w') = isSpeaking (view w)) /\
  (forall e, Part000.step (Part000.Synthesiser e) w = Some w' ->
             isListening (view w') = isListening (view w)).
Proof.
  open_world w. split.
  - unfold_part000; unfold_primitives; intros Hstep; split_step;
      reflexivity.
  - intros []; unfold_part000; unfold_primitives; intros Hstep; split_step;
      reflexivity.
Qed.

End Discipline.

(** C8, as corrected.  Along every run of part_000 from its first render
    in which the mic is pressed to start listening only while the world
    is quiet (the speaking flag off, no weather utterance queued, no
    lookup in flight) and replay is pressed only while not listening, the
    listening flag and the speaking flag are never both on. *)
Theorem disciplined_runs_are_exclusive
    (I : Imports) (synthesis recognition : bool)
    (trace : list Part000.Event) (w : World) :
  Part000.disciplined trace (initialWorld synthesis recognition) = true ->
  Part000.run trace (initialWorld synthesis recognition) = Some w ->
  exclusive w = true.
Proof.
  intros Hd Hrun. apply listeningIsQuiet_exclusive.
  apply (disciplined_run trace _ w Hd Hrun).
  intros Hl. discriminate Hl.
Qed.

Lemma disciplined_runs_witness :
  Part000.disciplined (H := sampleImports) speakingTrace
    (initialWorld true true) = true /\
  Part000.run (H := sampleImports) speakingTrace (initialWorld true true)
    = Some speakingWorld /\
  isSpeaking (view speakingWorld) = true /\
  exclusive speakingWorld = true.
Proof.
  assert (Hd : Part000.disciplined (H := sampleImports) speakingTrace
                 (initialWorld true true) = true)
    by (vm_compute; reflexivity).
  assert (Hrun : Part000.run (H := sampleImports) speakingTrace
                   (initialWorld true true) = Some speakingWorld)
    by (vm_compute; reflexivity).
  split; [exact Hd|]. split; [exact Hrun|]. split; [reflexivity|].
  exact (disciplined_runs_are_exclusive sampleImports true true speakingTrace
           speakingWorld Hd Hrun).
Defined.

(** C8, the claim as stated fails: pressing the mic while the utterance
    for "Hyderabad" is playing leaves both the listening flag and the
    speaking flag on. *)
Lemma listening_while_speaking :
  option_map (fun w => (isListening (view w), isSpeaking (view w)))
    (Part000.run (H := sampleImports) (speakingTrace ++ [Part000.MicPress])
       (initialWorld true true))
  = Some (true, true).
Proof. vm_compute. reflexivity. Qed.

(** * Browsers that lack a capability *)

Section Unsupported.
Context `{Imports}.

Lemma part000_mic_without_recognition (w : World) :
  browserSupportsSpeechRecognition w = false ->
  isListening (view w) = false ->
  let w' := after Part000.micButton_onClick w in
  returns Part000.micButton_onClick w = true /\
  error (view w') = Some voiceInputUnsupported /\
  isListening (view w') = false /\
  recognizing w' = recognizing w.
Proof.
  open_world w. intros -> ->.
  unfold_part000. unfold_primitives. simpl. repeat split; reflexivity.
Qed.

Lemma appTsx_mic_without_recognition (w : World) :
  browserSupportsSpeechRecognition w = false ->
  isListening (view w) = false ->
  let w' := after AppTsx.micButton_onClick w in
  returns AppTsx.micButton_onClick w = true /\
  error (view w') = Some voiceInputUnsupported /\
  isListening (view w') = false /\
  recognizing w' = recognizing w.
Proof.
  open_world w. intros -> ->.
  unfold AppTsx.micButton_onClick, AppTsx.startListening.
  unfold_primitives. simpl. repeat split; reflexivity.
Qed.

(** In a world part_000 can reach, a browser without recognition is
    never listening, so the mic button always takes the branch above. *)
Lemma part000_reachable_mic_without_recognition (w : World) :
  Part000.reachable w ->
  browserSupportsSpeechRecognition w = false ->
  error (view (after Part000.micButton_onClick w))
    = Some voiceInputUnsupported /\
  isListening (view (after Part000.micButton_onClick w)) = false.
Proof.
  intros Hreach Hrec.
  destruct (reachable_recognitionConsistent w Hreach Hrec) as (Hl & _).
  destruct (part000_mic_without_recognition w Hrec Hl) as (_ & He & Hl' & _).
  now split.
Qed.

End Unsupported.

(** C9.  In a browser without speech recognition, pressing the mic while
    not listening returns normally in both revisions, with the "voice
    input unsupported" message in the error slot, the listening flag
    still off and the recogniser not started.  In a browser without
    speech synthesis, [speakWeatherInfo] of part_000 returns normally,
    with the "voice output unsupported" message in the error slot and
    nothing added to the synthesiser's queue. *)
Theorem unsupported_features_set_error
    (I : Imports) (w1 w2 : World) (data : WeatherData) (tips : string) :
  browserSupportsSpeechRecognition w1 = false ->
  isListening (view w1) = false ->
  speechSynthesisInWindow w2 = false ->
  (returns Part000.micButton_onClick w1 = true /\
   error (view (after Part000.micButton_onClick w1))
     = Some voiceInputUnsupported /\
   isListening (view (after Part000.micButton_onClick w1)) = false /\
   recognizing (after Part000.micButton_onClick w1) = recognizing w1) /\
  (returns AppTsx.micButton_onClick w1 = true /\
   error (view (after AppTsx.micButton_onClick w1))
     = Some voiceInputUnsupported /\
   isListening (view (after AppTsx.micButton_onClick w1)) = false /\
   recognizing (after AppTsx.micButton_onClick w1) = recognizing w1) /\
  (returns (Part000.speakWeatherInfo data tips) w2 = true /\
   error (view (after (Part000.speakWeatherInfo data tips) w2))
     = Some voiceOutputUnsupported /\
   queue (after (Part000.speakWeatherInfo data tips) w2) = queue w2 /\
   isSpeaking (view (after (Part000.speakWeatherInfo data tips) w2))
     = isSpeaking (view w2)).
Proof.
  intros Hrec Hl Hsyn. split; [|split].
  - exact (part000_mic_without_recognition w1 Hrec Hl).
  - exact (appTsx_mic_without_recognition w1 Hrec Hl).
  - destruct (part000_speakWeatherInfo_spec data tips w2)
      as (Hr & _ & _ & _ & Hs & _ & Hrest).
    rewrite Hsyn in Hrest. destruct Hrest as (He & Hq & _).
    repeat split; assumption.
Qed.

Lemma unsupported_features_witness :
  error (view (after (Part000.micButton_onClick) (initialWorld true false)))
    = Some voiceInputUnsupported /\
  isListening (view (after (Part000.micButton_onClick)
                       (initialWorld true false))) = false /\
  error (view (after (Part000.speakWeatherInfo (H := sampleImports)
                        hyderabadReading Part000.noSpecialAdvice)
                 (initialWorld false true)))
    = Some voiceOutputUnsupported /\
  queue (after (Part000.speakWeatherInfo (H := sampleImports)
                  hyderabadReading Part000.noSpecialAdvice)
           (initialWorld false true)) = [].
Proof.
  destruct (unsupported_features_set_error sampleImports
              (initialWorld true false) (initialWorld false true)
              hyderabadReading Part000.noSpecialAdvice
              eq_refl eq_refl eq_refl)
    as ((_ & He & Hl & _) & _ & (_ & He' & Hq & _)).
  repeat split; assumption.
Defined.

(** * Starting speech while an utterance plays *)

Section Replay.
Context `{Imports}.

(** The synthesiser never adds to the start callbacks it owes, and the
    start of an utterance pays one. *)
Lemma synthesiser_startsToCome (e : SynthesiserEvent) (w w' : World) :
  synthesiser e w = Some w' ->
  startsToCome w' <= startsToCome w /\
  (e = UtteranceStart -> S (startsToCome w') = startsToCome w).
Proof.
  unfold startsToCome. open_world w.
  destruct e; unfold synthesiser, whenCallbacks, utterance_onstart,
    utterance_onend, utterance_onerror; unfold_primitives;
    intros Hstep; split_step; simpl;
    (split; [lia | intros E; try discriminate E; lia]).
Qed.

Lemma appTsx_stop_toggle (data : option WeatherData) (w : World) :
  speechSynthesisInWindow w = true ->
  let w' := after (AppTsx.speakWeatherInfo true data) w in
  returns (AppTsx.speakWeatherInfo true data) w = true /\
  queue w' = [] /\ started w' = false /\
  interrupted w' = (interrupted w ++ queue w)%list /\
  isSpeaking (view w') = false /\
  startsToCome w' = 0.
Proof.
  open_world w. intros ->.
  unfold AppTsx.speakWeatherInfo, startsToCome. unfold_primitives. simpl.
  repeat split; reflexivity.
Qed.

Lemma part000_speak_then_start (data : WeatherData) (tips : string)
    (w : World) :
  speechSynthesisInWindow w = true ->
  let w' := after (Part000.speakWeatherInfo data tips) w in
  startsToCome w' = 1 /\
  exists w'',
    synthesiser UtteranceStart w' = Some w'' /\
    isSpeaking (view w'') = true /\
    queue w'' = [Part000.weatherUtterance data tips] /\
    startsToCome w'' = 0.
Proof.
  open_world w. intros ->.
  unfold Part000.speakWeatherInfo, Part000.weatherUtterance, startsToCome,
    synthesiser, whenCallbacks, utterance_onstart.
  unfold_primitives. simpl. split; [reflexivity|].
  eexists. repeat split; reflexivity.
Qed.

End Replay.

(** C5, as corrected.  In part_000, when [speakWeatherInfo] is called in
    a reachable world in which an utterance [u] is playing, it returns
    with [u] and everything queued behind it removed from the queue and
    the new utterance alone in it, not yet begun: one start callback is
    owed, the new utterance's, and once it has fired none is.  In
    [src/App.tsx] a call made while the speaking flag it captured is on
    only cancels: the queue is left empty, the flag off, and no start
    callback is owed. *)
Theorem speaking_again_cancels_previous
    (I : Imports) (w w2 : World) (u : Utterance) (rest : list Utterance)
    (data : WeatherData) (tips : string) (data2 : option WeatherData) :
  Part000.reachable w ->
  queue w = u :: rest ->
  started w = true ->
  speechSynthesisInWindow w2 = true ->
  (returns (Part000.speakWeatherInfo data tips) w = true /\
   queue (after (Part000.speakWeatherInfo data tips) w)
     = [Part000.weatherUtterance data tips] /\
   started (after (Part000.speakWeatherInfo data tips) w) = false /\
   In u (interrupted (after (Part000.speakWeatherInfo data tips) w)) /\
   startsToCome (after (Part000.speakWeatherInfo data tips) w) = 1 /\
   exists w'',
     synthesiser UtteranceStart (after (Part000.speakWeatherInfo data tips) w)
       = Some w'' /\
     isSpeaking (view w'') = true /\
     startsToCome w'' = 0) /\
  (returns (AppTsx.speakWeatherInfo true data2) w2 = true /\
   queue (after (AppTsx.speakWeatherInfo true data2) w2) = [] /\
   isSpeaking (view (after (AppTsx.speakWeatherInfo true data2) w2)) = false /\
   startsToCome (after (AppTsx.speakWeatherInfo true data2) w2) = 0).
Proof.
  intros Hreach Hq Hst Hsyn2.
  assert (Hsyn : speechSynthesisInWindow w = true).
  { apply (reachable_queue_has_synthesis w Hreach). rewrite Hq. discriminate. }
  split.
  - destruct (part000_speakWeatherInfo_spec data tips w)
      as (Hr & _ & _ & _ & _ & _ & Hrest).
    rewrite Hsyn in Hrest. destruct Hrest as (_ & Hq' & Hst' & Hi).
    destruct (part000_speak_then_start data tips w Hsyn)
      as (Hone & w'' & Hstart & Hs & _ & Hzero).
    repeat (split; [assumption|]).
    split.
    + rewrite Hi, Hq. apply in_or_app. right. now left.
    + split; [assumption|]. exists w''. now repeat split.
  - destruct (appTsx_stop_toggle data2 w2 Hsyn2)
      as (Hr & Hq' & _ & _ & Hs & Hzero).
    now repeat split.
Qed.

Lemma speaking_again_witness :
  queue speakingWorld
    = [Part000.weatherUtterance (H := sampleImports) hyderabadReading
         Part000.noSpecialAdvice] /\
  started speakingWorld = true /\
  queue (after (Part000.speakWeatherInfo (H := sampleImports)
                  hyderabadReading Part000.noSpecialAdvice) speakingWorld)
    = [Part000.weatherUtterance (H := sampleImports) hyderabadReading
         Part000.noSpecialAdvice] /\
  interrupted (after (Part000.speakWeatherInfo (H := sampleImports)
                  hyderabadReading Part000.noSpecialAdvice) speakingWorld)
    = [Part000.weatherUtterance (H := sampleImports) hyderabadReading
         Part000.noSpecialAdvice] /\
  startsToCome (after (Part000.speakWeatherInfo (H := sampleImports)
                  hyderabadReading Part000.noSpecialAdvice) speakingWorld)
    = 1.
Proof.
  split; [reflexivity|]. split; [reflexivity|].
  destruct (speaking_again_cancels_previous sampleImports
              speakingWorld speakingWorldAppTsx
              (Part000.weatherUtterance (H := sampleImports) hyderabadReading
                 Part000.noSpecialAdvice)
              [] hyderabadReading Part000.noSpecialAdvice
              (Some hyderabadReading)
              speakingWorld_reachable eq_refl eq_refl eq_refl)
    as ((_ & Hq & _ & _ & Hone & _) & _).
  split; [exact Hq|]. split; [reflexivity|]. exact Hone.
Defined.

(** C5, the claim as stated fails: in [src/App.tsx], with the utterance
    for "Hyderabad" playing and the speaking flag on, pressing replay
    cancels it and starts nothing: the queue is left empty and no start
    callback is owed. *)
Lemma replay_in_appTsx_only_stops :
  isSpeaking (view speakingWorldAppTsx) = true /\
  length (queue speakingWorldAppTsx) = 1 /\
  started speakingWorldAppTsx = true /\
  queue (after (AppTsx.replayButton_onClick (H := sampleImports))
           speakingWorldAppTsx) = [] /\
  startsToCome (after (AppTsx.replayButton_onClick (H := sampleImports))
                  speakingWorldAppTsx) = 0 /\
  isSpeaking (view (after (AppTsx.replayButton_onClick (H := sampleImports))
                      speakingWorldAppTsx)) = false.
Proof. vm_compute. repeat split; reflexivity. Qed.

(** * The lookup, whole and by turns *)

Section ByTurns.
Context `{Imports}.

Lemma nth_error_last {A : Type} (l : list A) (x : A) :
  nth_error (l ++ [x]) (length l) = Some x.
Proof. induction l as [|y l IH]; simpl; [reflexivity | exact IH]. Qed.

Lemma remove_nth_last {A : Type} (l : list A) (x : A) :
  Part000.remove_nth (length l) (l ++ [x]) = l.
Proof.
  induction l as [|y l IH]; simpl; [reflexivity | now rewrite IH].
Qed.

(** The two renderings of [handleLocationSubmit] agree: run in one go
    it is the call, the first promise settling and the second promise
    settling, run as three turns of the event loop with nothing in
    between. *)
Lemma handleLocationSubmit_by_turns (place : string) (w : World) :
  let n := length (lookups w) in
  let called := after (Part000.handleLocationSubmit_call place) w in
  match getCoordinates place with
  | Rejected reason =>
      Part000.step (Part000.CoordinatesSettle n (Rejected reason)) called
        = Some (after (Part000.handleLocationSubmit place) w)
  | Fulfilled coordinates =>
      exists between,
        Part000.step (Part000.CoordinatesSettle n (Fulfilled coordinates))
          called = Some between /\
        Part000.step
          (Part000.WeatherSettle n (getWeatherData coordinates place)) between
          = Some (after (Part000.handleLocationSubmit place) w)
  end.
Proof.
  destruct w as [v syn q st intr rec tr rcg hid lk con]. simpl.
  unfold Part000.step, Part000.handleLocationSubmit_call, Part000.suspend.
  unfold_primitives. simpl.
  destruct (getCoordinates place) as [c|e] eqn:Ec.
  - eexists. rewrite nth_error_last, remove_nth_last. split; [reflexivity|].
    unfold Part000.handleLocationSubmit_coordinates, Part000.suspend.
    unfold_primitives. simpl.
    rewrite nth_error_last, remove_nth_last.
    unfold Part000.handleLocationSubmit_weather, Part000.handleLocationSubmit,
      Part000.catchBlock.
    unfold_primitives. simpl. rewrite Ec. simpl.
    destruct (getWeatherData c place) as [[d|]|e']; simpl.
    + unfold Part000.speakWeatherInfo. unfold_primitives.
      destruct syn; vm_compute; reflexivity.
    + unfold Part000.speakErrorMessage. unfold_primitives. simpl.
      destruct syn; reflexivity.
    + unfold Part000.speakErrorMessage. unfold_primitives. simpl.
      destruct syn; reflexivity.
  - rewrite nth_error_last, remove_nth_last.
    unfold Part000.handleLocationSubmit_coordinates, Part000.handleLocationSubmit,
      Part000.catchBlock, Part000.speakErrorMessage.
    unfold_primitives. simpl. rewrite Ec. simpl.
    destruct syn; reflexivity.
Qed.

End ByTurns.

(** * Lookups that succeed *)

Section LastSegment.
Context `{Imports}.



End LastSegment.





(** * The mic button *)

(** X1.  In a browser with speech recognition, pressing the mic while
    not listening turns the listening flag on, clears the transcript and
    starts the recogniser in Telugu, non-continuous; it touches neither
    the error slot nor the synthesiser.  Pressing it again turns the flag
    off and stops the recogniser.  Both revisions. *)
Theorem mic_button_toggles (w : World) :
  browserSupportsSpeechRecognition w = true ->
  isListening (view w) = false ->
  (isListening (view (after Part000.micButton_onClick w)) = true /\
   recognizing (after Part000.micButton_onClick w) = Some te_IN /\
   transcript (after Part000.micButton_onClick w) = "" /\
   error (view (after Part000.micButton_onClick w)) = error (view w) /\
   queue (after Part000.micButton_onClick w) = queue w /\
   isListening (view (after Part000.micButton_onClick
                        (after Part000.micButton_onClick w))) = false /\
   recognizing (after Part000.micButton_onClick
                  (after Part000.micButton_onClick w)) = None) /\
  (isListening (view (after AppTsx.micButton_onClick w)) = true /\
   recognizing (after AppTsx.micButton_onClick w) = Some te_IN /\
   transcript (after AppTsx.micButton_onClick w) = "" /\
   error (view (after AppTsx.micButton_onClick w)) = error (view w) /\
   queue (after AppTsx.micButton_onClick w) = queue w /\
   isListening (view (after AppTsx.micButton_onClick
                        (after AppTsx.micButton_onClick w))) = false /\
   recognizing (after AppTsx.micButton_onClick
                  (after AppTsx.micButton_onClick w)) = None).
Proof.
  open_world w. intros -> ->.
  unfold AppTsx.micButton_onClick, AppTsx.startListening,
    AppTsx.stopListening.
  unfold_part000. unfold_primitives. simpl.
  repeat split; reflexivity.
Qed.

Lemma mic_button_toggles_witness :
  isListening (view (after Part000.micButton_onClick (initialWorld true true)))
    = true /\
  recognizing (after Part000.micButton_onClick (initialWorld true true))
    = Some te_IN /\
  isListening (view (after Part000.micButton_onClick
                       (after Part000.micButton_onClick
                          (initialWorld true true)))) = false.
Proof.
  destruct (mic_button_toggles (initialWorld true true) eq_refl eq_refl)
    as ((Hl & Hr & _ & _ & _ & Hl2 & _) & _).
  repeat split; assumption.
Defined.

(** * Transcripts *)

(** X2.  In part_000 a transcript that is not empty starts exactly one
    lookup, parked at its first [await], after turning listening off and
    stopping the recogniser.  The error and advice slots are cleared at
    once; the reading on view stays, and speech under way is not
    cancelled. *)
Theorem transcript_starts_one_lookup
    (I : Imports) (t : string) (w w' : World) :
  t <> "" ->
  Part000.step (Part000.TranscriptArrives t) w = Some w' ->
  lookups w' = (lookups w ++ [AwaitingCoordinates t])%list /\
  isListening (view w') = false /\
  recognizing w' = None /\
  error (view w') = None /\
  agricultureTips (view w') = None /\
  weatherData (view w') = weatherData (view w) /\
  isSpeaking (view w') = isSpeaking (view w) /\
  queue w' = queue w /\
  started w' = started w.
Proof.
  open_world w. intros Hne. unfold_part000. unfold_primitives. simpl.
  destruct (t =? transcript0); [discriminate|].
  destruct (String.eqb_spec t "") as [E|_]; [contradiction|].
  simpl. intros [= <-]. repeat split; reflexivity.
Qed.

Lemma transcript_starts_one_lookup_witness :
  lookups (orInitial (Part000.step (H := sampleImports)
                        (Part000.TranscriptArrives "Warangal") speakingWorld))
    = [AwaitingCoordinates "Warangal"] /\
  queue (orInitial (Part000.step (H := sampleImports)
                        (Part000.TranscriptArrives "Warangal") speakingWorld))
    = queue speakingWorld.
Proof.
  assert (Hstep : Part000.step (H := sampleImports)
                    (Part000.TranscriptArrives "Warangal") speakingWorld
                  = Some (orInitial (Part000.step (H := sampleImports)
                            (Part000.TranscriptArrives "Warangal")
                            speakingWorld)))
    by (vm_compute; reflexivity).
  assert (Hne : "Warangal" <> "") by discriminate.
  destruct (transcript_starts_one_lookup sampleImports "Warangal"
              speakingWorld _ Hne Hstep)
    as (Hl & _ & _ & _ & _ & _ & _ & Hq & _).
  split; [exact Hl | exact Hq].
Defined.

(** X3.  In part_000 a transcript that becomes empty starts no lookup
    and writes no slot of the view: in particular it does not turn
    listening off. *)
Theorem empty_transcript_starts_nothing (I : Imports) (w w' : World) :
  Part000.step (Part000.TranscriptArrives "") w = Some w' ->
  view w' = view w /\
  lookups w' = lookups w /\
  queue w' = queue w /\
  recognizing w' = recognizing w /\
  console w' = console w.
Proof.
  open_world w. unfold_part000. unfold_primitives.
  intros Hstep. split_step. repeat split; reflexivity.
Qed.

Lemma empty_transcript_witness :
  Part000.step (H := sampleImports) (Part000.TranscriptArrives "") heardWorld
    = Some (with_recognition "" (Some te_IN) (initialWorld true true)) /\
  view (with_recognition "" (Some te_IN) (initialWorld true true))
    = view heardWorld.
Proof.
  assert (Hstep : Part000.step (H := sampleImports)
                    (Part000.TranscriptArrives "") heardWorld
                  = Some (with_recognition "" (Some te_IN)
                            (initialWorld true true)))
    by reflexivity.
  split; [exact Hstep|].
  exact (proj1 (empty_transcript_starts_nothing sampleImports heardWorld _
                  Hstep)).
Defined.

(** * A weather fetch that fulfils with no reading *)

(** X4.  In part_000, when the geocoding of a lookup has succeeded and
    its weather fetch fulfils with no reading, the lookup ends like a
    rejection, in whatever world that happens: the "location not found"
    message is set, the reading and the advice on view are left as they
    were, and the error utterance is queued when the browser can
    speak. *)
Theorem part000_no_data_is_a_failure
    (I : Imports) (n : nat) (w w' : World) :
  Part000.step (Part000.WeatherSettle n (Fulfilled None)) w = Some w' ->
  error (view w') = Some Part000.locationNotFound /\
  weatherData (view w') = weatherData (view w) /\
  agricultureTips (view w') = agricultureTips (view w) /\
  isSpeaking (view w') = isSpeaking (view w) /\
  queue w'
    = (if speechSynthesisInWindow w
       then queue w ++ [Part000.errorUtterance]
       else queue w)%list.
Proof.
  open_world w.
  unfold_part000. unfold Part000.errorUtterance. unfold_primitives.
  intros Hstep; split_step; repeat split; reflexivity.
Qed.

(** X5.  In [src/App.tsx] the same outcome empties the weather-reading
    slot and ends in the inner [catch] of [speakWeatherInfo]: the "voice
    output problem" message is set, not "location not found", and
    nothing is queued. *)
Theorem appTsx_no_data_clears_reading
    (I : Imports) (place : string) (w : World) :
  lookup place = Fulfilled None ->
  returns (AppTsx.handleLocationSubmit place) w = true /\
  weatherData (view (after (AppTsx.handleLocationSubmit place) w)) = None /\
  error (view (after (AppTsx.handleLocationSubmit place) w))
    = Some voiceOutputProblem /\
  queue (after (AppTsx.handleLocationSubmit place) w) = queue w.
Proof.
  unfold lookup, AppTsx.handleLocationSubmit, AppTsx.speakWeatherInfo.
  unfold_primitives. simpl.
  destruct (getCoordinates place) as [c|e]; simpl; [|discriminate].
  intros ->. simpl. repeat split; reflexivity.
Qed.

(** * Overlapping lookups *)

(** X6.  In part_000 the reading that arrives last wins: whenever a
    weather fetch fulfils with reading [r], whatever else is in flight,
    [r] and its advice go on view.  The error slot is not cleared at that
    point: in a browser that can speak it is left as it was, so the
    message of another lookup that failed meanwhile stays next to [r]. *)
Theorem last_reading_wins
    (I : Imports) (n : nat) (r : WeatherData) (w w' : World) :
  Part000.step (Part000.WeatherSettle n (Fulfilled (Some r))) w = Some w' ->
  weatherData (view w') = Some r /\
  agricultureTips (view w') = Some (Part000.advice r) /\
  (speechSynthesisInWindow w = true ->
   error (view w') = error (view w) /\
   queue w' = [Part000.weatherUtterance r (Part000.advice r)]).
Proof.
  open_world w.
  unfold_part000. unfold Part000.weatherUtterance, Part000.advice.
  unfold_primitives.
  intros Hstep; split_step; repeat split; try reflexivity;
    try discriminate.
Qed.

Lemma part000_no_data_witness :
  Part000.step (H := sampleImports)
    (Part000.WeatherSettle 0 (Fulfilled None)) awaitingWeatherWorld
  = Some (orInitial (Part000.step (H := sampleImports)
            (Part000.WeatherSettle 0 (Fulfilled None))
            awaitingWeatherWorld)) /\
  error (view (orInitial (Part000.step (H := sampleImports)
            (Part000.WeatherSettle 0 (Fulfilled None))
            awaitingWeatherWorld)))
    = Some Part000.locationNotFound /\
  queue (orInitial (Part000.step (H := sampleImports)
            (Part000.WeatherSettle 0 (Fulfilled None))
            awaitingWeatherWorld))
    = [Part000.errorUtterance].
Proof.
  assert (Hstep : Part000.step (H := sampleImports)
                    (Part000.WeatherSettle 0 (Fulfilled None))
                    awaitingWeatherWorld
                  = Some (orInitial (Part000.step (H := sampleImports)
                            (Part000.WeatherSettle 0 (Fulfilled None))
                            awaitingWeatherWorld)))
    by (vm_compute; reflexivity).
  split; [exact Hstep|].
  destruct (part000_no_data_is_a_failure sampleImports 0
              awaitingWeatherWorld _ Hstep) as (He & _ & _ & _ & Hq).
  split; [exact He|]. rewrite Hq. reflexivity.
Defined.

Lemma appTsx_no_data_witness :
  lookup (H := noDataImports) "Hyderabad" = Fulfilled None /\
  weatherData (view speakingWorldAppTsx) = Some hyderabadReading /\
  weatherData (view (after (AppTsx.handleLocationSubmit (H := noDataImports)
                              "Hyderabad") speakingWorldAppTsx)) = None /\
  error (view (after (AppTsx.handleLocationSubmit (H := noDataImports)
                        "Hyderabad") speakingWorldAppTsx))
    = Some voiceOutputProblem.
Proof.
  split; [reflexivity|]. split; [reflexivity|].
  destruct (appTsx_no_data_clears_reading noDataImports "Hyderabad"
              speakingWorldAppTsx eq_refl) as (_ & Hd & He & _).
  split; assumption.
Defined.

Lemma last_reading_wins_witness :
  error (view beforeLastSettle) = Some Part000.locationNotFound /\
  weatherData (view beforeLastSettle) = None /\
  weatherData (view (orInitial (Part000.step (H := sampleImports)
     (Part000.WeatherSettle 0 (Fulfilled (Some hyderabadReading)))
     beforeLastSettle))) = Some hyderabadReading /\
  error (view (orInitial (Part000.step (H := sampleImports)
     (Part000.WeatherSettle 0 (Fulfilled (Some hyderabadReading)))
     beforeLastSettle))) = Some Part000.locationNotFound.
Proof.
  assert (Hstep : Part000.step (H := sampleImports)
            (Part000.WeatherSettle 0 (Fulfilled (Some hyderabadReading)))
            beforeLastSettle
          = Some (orInitial (Part000.step (H := sampleImports)
               (Part000.WeatherSettle 0 (Fulfilled (Some hyderabadReading)))
               beforeLastSettle)))
    by (vm_compute; reflexivity).
  assert (He : error (view beforeLastSettle) = Some Part000.locationNotFound)
    by (vm_compute; reflexivity).
  split; [exact He|]. split; [vm_compute; reflexivity|].
  destruct (last_reading_wins sampleImports 0 hyderabadReading
              beforeLastSettle _ Hstep) as (Hd & _ & Hrest).
  split; [exact Hd|].
  destruct (Hrest eq_refl) as (He' & _). rewrite He'. exact He.
Defined.

(** * More of what every reachable world of part_000 satisfies *)

Section MoreInvariants.
Context `{Imports}.

Lemma advice_not_empty (data : WeatherData) :
  (Part000.advice data =? "") = false.
Proof.
  unfold Part000.advice.
  destruct (getAgricultureSuggestions data =? "") eqn:E;
    [reflexivity | exact E].
Qed.

Lemma step_tipsMatchReading (e : Part000.Event) (w w' : World) :
  Part000.step e w = Some w' ->
  tipsMatchReading w -> tipsMatchReading w'.
Proof.
  unfold tipsMatchReading. open_world w.
  destruct e as [| | | | | |[]]; unfold_part000; unfold_primitives;
    intros Hstep Hinv; split_step;
    intros tips Htips; simpl in Htips; try discriminate Htips;
    try (exact (Hinv tips Htips));
    injection Htips as <-; eexists; (split; [reflexivity|]);
    unfold Part000.advice;
    match goal with E : (_ =? "") = _ |- _ => rewrite E end;
    reflexivity.
Qed.

Lemma step_allTelugu (e : Part000.Event) (w w' : World) :
  Part000.step e w = Some w' ->
  allTelugu w = true -> allTelugu w' = true.
Proof.
  unfold allTelugu. open_world w.
  destruct e as [| | | | | |[]]; unfold_part000; unfold_primitives;
    intros Hstep Hinv; split_step; split_conjunctions; solve_forallb.
Qed.

Lemma step_weatherUtterancesQueued (e : Part000.Event) (w w' : World) :
  Part000.step e w = Some w' ->
  weatherUtterancesQueued w <= 1 -> weatherUtterancesQueued w' <= 1.
Proof.
  unfold weatherUtterancesQueued. open_world w.
  destruct e as [| | | | | |[]]; unfold_part000; unfold_primitives;
    intros Hstep Hinv; split_step; simpl in *;
    rewrite ?filter_app, ?length_app; simpl in *; lia.
Qed.

Lemma step_silentAreErrors (e : Part000.Event) (w w' : World) :
  Part000.step e w = Some w' ->
  silentAreErrors w -> silentAreErrors w'.
Proof.
  unfold silentAreErrors. open_world w.
  destruct e as [| | | | | |[]]; unfold_part000; unfold_primitives;
    intros Hstep Hinv; split_step; simpl in *;
    intros x Hin Hcb;
    try (apply in_app_or in Hin as [Hin|Hin]); simpl in Hin;
    repeat match goal with
           | D : _ \/ _ |- _ => destruct D
           | F : False |- _ => contradiction F
           end;
    subst; simpl in *; try discriminate; try reflexivity;
    try (apply Hinv; [assumption | assumption]);
    try (apply Hinv; [right; assumption | assumption]);
    try (apply Hinv; [left; reflexivity | assumption]).
Qed.

End MoreInvariants.

Lemma tips_match_reading_of_reachable `{Imports} (w : World) (tips : string) :
  Part000.reachable w ->
  agricultureTips (view w) = Some tips ->
  exists data,
    weatherData (view w) = Some data /\
    tips = Part000.advice data /\
    (tips =? "") = false.
Proof.
  intros (syn & rec & trace & Hrun) Htips.
  assert (Hinv : tipsMatchReading w).
  { apply (run_invariant tipsMatchReading step_tipsMatchReading _ _ _ Hrun).
    intros t Ht. discriminate Ht. }
  destruct (Hinv tips Htips) as (data & Hd & ->).
  exists data. repeat split; [exact Hd | apply advice_not_empty].
Qed.

(** X7.  In every world part_000 can reach, advice on view belongs to
    the reading on view: it is the advice computed from that reading,
    and it is not the empty string. *)
Theorem tips_belong_to_reading (I : Imports) (w : World) (tips : string) :
  Part000.reachable w ->
  agricultureTips (view w) = Some tips ->
  exists data,
    weatherData (view w) = Some data /\
    tips = Part000.advice data /\
    (tips =? "") = false.
Proof.
  intros Hreach Htips.
  exact (tips_match_reading_of_reachable w tips Hreach Htips).
Qed.

Lemma tips_belong_to_reading_witness :
  agricultureTips (view speakingWorld) = Some Part000.noSpecialAdvice /\
  exists data,
    weatherData (view speakingWorld) = Some data /\
    Part000.noSpecialAdvice = Part000.advice (H := sampleImports) data /\
    (Part000.noSpecialAdvice =? "") = false.
Proof.
  split; [reflexivity|].
  exact (tips_belong_to_reading sampleImports speakingWorld
           Part000.noSpecialAdvice speakingWorld_reachable eq_refl).
Defined.

(** X8.  In every world part_000 can reach, every utterance the
    synthesiser holds, queued or cancelled, has its language set to
    "te-IN". *)
Theorem utterances_are_telugu (I : Imports) (w : World) (u : Utterance) :
  Part000.reachable w ->
  In u (queue w ++ interrupted w) ->
  lang u = "te-IN".
Proof.
  intros (syn & rec & trace & Hrun) Hin.
  assert (Hinv : allTelugu w = true).
  { apply (run_invariant (fun w => allTelugu w = true) step_allTelugu
             _ _ _ Hrun). reflexivity. }
  unfold allTelugu in Hinv. apply andb_prop in Hinv as (Hq & Hi).
  apply String.eqb_eq.
  apply in_app_or in Hin as [Hin|Hin].
  - exact (proj1 (forallb_forall _ _) Hq u Hin).
  - exact (proj1 (forallb_forall _ _) Hi u Hin).
Qed.

Lemma utterances_are_telugu_witness :
  queue speakingWorld
    = [Part000.weatherUtterance (H := sampleImports) hyderabadReading
         Part000.noSpecialAdvice] /\
  lang (Part000.weatherUtterance (H := sampleImports) hyderabadReading
          Part000.noSpecialAdvice) = "te-IN".
Proof.
  split; [reflexivity|].
  apply (utterances_are_telugu sampleImports speakingWorld _
           speakingWorld_reachable).
  left. reflexivity.
Defined.

(** X9.  In every world part_000 can reach, at most one utterance with
    the callbacks of [speakWeatherInfo] is in the synthesiser's queue,
    and every queued utterance without callbacks is the error
    utterance. *)
Theorem one_weather_utterance_queued
    (I : Imports) (w : World) (u : Utterance) :
  Part000.reachable w ->
  weatherUtterancesQueued w <= 1 /\
  (In u (queue w) -> callbacks u = false -> u = Part000.errorUtterance).
Proof.
  intros (syn & rec & trace & Hrun). split.
  - apply (run_invariant (fun w => weatherUtterancesQueued w <= 1)
             step_weatherUtterancesQueued _ _ _ Hrun).
    unfold weatherUtterancesQueued. simpl. lia.
  - apply (run_invariant silentAreErrors step_silentAreErrors _ _ _ Hrun).
    intros x Hin. contradiction Hin.
Qed.

Lemma twoQueuedWorld_reachable :
  Part000.reachable (H := sampleImports) twoQueuedWorld.
Proof. exists true, true, twoQueuedTrace. vm_compute. reflexivity. Qed.

Lemma one_weather_utterance_witness :
  queue twoQueuedWorld
    = [Part000.weatherUtterance (H := sampleImports) hyderabadReading
         Part000.noSpecialAdvice;
       Part000.errorUtterance] /\
  weatherUtterancesQueued twoQueuedWorld <= 1.
Proof.
  split; [vm_compute; reflexivity|].
  exact (proj1 (one_weather_utterance_queued sampleImports twoQueuedWorld
                  Part000.errorUtterance twoQueuedWorld_reachable)).
Defined.

Lemma muteWorld_reachable : Part000.reachable (H := sampleImports) muteWorld.
Proof.
  exists false, true, (removelast speakingTrace). vm_compute. reflexivity.
Qed.

Lemma deafWorld_reachable : Part000.reachable (H := sampleImports) deafWorld.
Proof. exists true, false, [Part000.MicPress]. vm_compute. reflexivity. Qed.

(** X10.  In a browser without speech synthesis part_000 never hands an
    utterance to the synthesiser and never turns the speaking flag on:
    in every reachable world the queue is empty, nothing was cancelled
    and the flag is off. *)
Theorem without_synthesis_nothing_is_spoken (I : Imports) (w : World) :
  Part000.reachable w ->
  speechSynthesisInWindow w = false ->
  queue w = [] /\ interrupted w = [] /\ isSpeaking (view w) = false.
Proof.
  intros Hreach Hsyn. exact (reachable_synthesisConsistent w Hreach Hsyn).
Qed.

Lemma without_synthesis_witness :
  weatherData (view muteWorld) = Some hyderabadReading /\
  error (view muteWorld) = Some voiceOutputUnsupported /\
  queue muteWorld = [] /\ isSpeaking (view muteWorld) = false.
Proof.
  split; [reflexivity|]. split; [reflexivity|].
  destruct (without_synthesis_nothing_is_spoken sampleImports muteWorld
              muteWorld_reachable eq_refl) as (Hq & _ & Hs).
  split; assumption.
Defined.

(** X11.  In a browser without speech recognition part_000 never turns
    the listening flag on and never starts the recogniser. *)
Theorem without_recognition_nothing_listens (I : Imports) (w : World) :
  Part000.reachable w ->
  browserSupportsSpeechRecognition w = false ->
  isListening (view w) = false /\ recognizing w = None.
Proof.
  intros Hreach Hrec. exact (reachable_recognitionConsistent w Hreach Hrec).
Qed.

Lemma without_recognition_witness :
  error (view deafWorld) = Some voiceInputUnsupported /\
  isListening (view deafWorld) = false /\ recognizing deafWorld = None.
Proof.
  split; [reflexivity|].
  exact (without_recognition_nothing_listens sampleImports deafWorld
           deafWorld_reachable eq_refl).
Defined.

(** * The visibility handler at its edges *)

(** X12.  The visibility handler of part_000 calls [cancel] without
    testing for the synthesiser.  In a browser without speech synthesis,
    becoming hidden makes the handler throw before it writes the
    speaking flag: the view is untouched and the event loop reports the
    uncaught [TypeError].  Becoming visible does nothing at all. *)
Theorem visibility_without_synthesis_throws (I : Imports) (w : World) :
  speechSynthesisInWindow w = false ->
  returns Part000.handleVisibilityChange (with_hidden true w) = false /\
  view (after Part000.handleVisibilityChange (with_hidden true w)) = view w /\
  option_map console (Part000.step (Part000.VisibilityChange true) w)
    = Some (console w ++
            [LogError "Uncaught"
               (TypeError "window.speechSynthesis is undefined")])%list /\
  option_map view (Part000.step (Part000.VisibilityChange true) w)
    = Some (view w) /\
  Part000.step (Part000.VisibilityChange false) w
    = Some (with_hidden false w).
Proof.
  open_world w. intros ->.
  unfold_part000. unfold_primitives. simpl. repeat split; reflexivity.
Qed.

Lemma visibility_without_synthesis_witness :
  returns (Part000.handleVisibilityChange) (with_hidden true muteWorld)
    = false /\
  view (after (Part000.handleVisibilityChange) (with_hidden true muteWorld))
    = view muteWorld.
Proof.
  destruct (visibility_without_synthesis_throws sampleImports muteWorld
              eq_refl) as (Hr & Hv & _).
  split; assumption.
Defined.

(** * The error utterance and the speaking flag *)

(** X13.  The error utterance of part_000 carries no callback: after a
    lookup that fails in a silent world of a browser that can speak, the
    synthesiser begins the error utterance and the speaking flag is what
    it was; the message is spoken with the flag off. *)
Theorem error_utterance_leaves_flag
    (I : Imports) (place : string) (w : World) :
  speechSynthesisInWindow w = true ->
  queue w = [] ->
  started w = false ->
  lookupFails place = true ->
  exists w',
    synthesiser UtteranceStart (after (Part000.handleLocationSubmit place) w)
      = Some w' /\
    queue w' = [Part000.errorUtterance] /\
    started w' = true /\
    isSpeaking (view w') = isSpeaking (view w).
Proof.
  open_world w. intros -> -> ->.
  unfold lookupFails, lookup, Part000.handleLocationSubmit,
    Part000.speakErrorMessage, Part000.errorUtterance, synthesiser,
    whenCallbacks.
  unfold_primitives. simpl.
  destruct (getCoordinates place) as [c|e]; simpl.
  - destruct (getWeatherData c place) as [d|e]; simpl; [discriminate|].
    intros _. eexists. repeat split; reflexivity.
  - intros _. eexists. repeat split; reflexivity.
Qed.

Lemma error_utterance_witness :
  lookupFails (H := sampleImports) "Atlantis" = true /\
  exists w',
    synthesiser UtteranceStart
      (after (Part000.handleLocationSubmit (H := sampleImports) "Atlantis")
         (initialWorld true true)) = Some w' /\
    queue w' = [Part000.errorUtterance] /\
    started w' = true /\
    isSpeaking (view w') = false.
Proof.
  split; [reflexivity|].
  exact (error_utterance_leaves_flag sampleImports "Atlantis"
           (initialWorld true true) eq_refl eq_refl eq_refl eq_refl).
Defined.

(** * The replay button *)

(** X14.  In every world part_000 can reach in a browser that can speak,
    pressing replay while reading [data] is on view leaves the view as
    it is and leaves exactly one utterance in the queue: the weather
    utterance of [data], with the advice of [data] when advice is on
    view and with the fixed "no advice" sentence when the advice slot is
    empty. *)
Theorem replay_speaks_the_reading_on_view
    (I : Imports) (data : WeatherData) (w w' : World) :
  Part000.reachable w ->
  speechSynthesisInWindow w = true ->
  weatherData (view w) = Some data ->
  Part000.step Part000.ReplayPress w = Some w' ->
  view w' = view w /\
  queue w' =
    [Part000.weatherUtterance data
       (match agricultureTips (view w) with
        | Some _ => Part000.advice data
        | None => Part000.noAdvice
        end)] /\
  started w' = false.
Proof.
  intros Hreach Hsyn Hdata Hstep.
  assert (Htips : forall tips, agricultureTips (view w) = Some tips ->
                   tips = Part000.advice data /\ (tips =? "") = false).
  { intros tips Ht.
    destruct (tips_match_reading_of_reachable w tips Hreach Ht)
      as (data' & Hd' & -> & Hne).
    rewrite Hdata in Hd'. injection Hd' as <-. now split. }
  revert Hstep Htips. open_world w. subst.
  unfold_part000. unfold Part000.weatherUtterance. unfold_primitives. simpl.
  intros [= <-] Htips. simpl.
  destruct agricultureTips0 as [tips|]; simpl.
  - destruct (Htips tips eq_refl) as (-> & ->). repeat split; reflexivity.
  - repeat split; reflexivity.
Qed.

Lemma replay_witness :
  weatherData (view speakingWorld) = Some hyderabadReading /\
  queue (orInitial (Part000.step (H := sampleImports) Part000.ReplayPress
                      speakingWorld))
    = [Part000.weatherUtterance (H := sampleImports) hyderabadReading
         Part000.noSpecialAdvice] /\
  started (orInitial (Part000.step (H := sampleImports) Part000.ReplayPress
                        speakingWorld)) = false.
Proof.
  assert (Hstep : Part000.step (H := sampleImports) Part000.ReplayPress
                    speakingWorld
                  = Some (orInitial (Part000.step (H := sampleImports)
                            Part000.ReplayPress speakingWorld)))
    by (vm_compute; reflexivity).
  split; [reflexivity|].
  destruct (replay_speaks_the_reading_on_view sampleImports hyderabadReading
              speakingWorld _ speakingWorld_reachable eq_refl eq_refl Hstep)
    as (_ & Hq & Hst).
  split; [exact Hq | exact Hst].
Defined.

(** * Lookups of [src/App.tsx] that succeed *)

(** X15.  In [src/App.tsx], in a browser that can speak, a lookup that
    succeeds with reading [r] puts [r] on view and appends its utterance
    to the synthesiser's queue without cancelling: what was queued or
    playing stays in front of it.  (The callback was created at the
    first render, where the speaking flag it tests is off.) *)
Theorem appTsx_successful_lookup_queues_speech
    (I : Imports) (place : string) (r : WeatherData) (w : World) :
  speechSynthesisInWindow w = true ->
  lookup place = Fulfilled (Some r) ->
  returns (AppTsx.handleLocationSubmit place) w = true /\
  weatherData (view (after (AppTsx.handleLocationSubmit place) w)) = Some r /\
  queue (after (AppTsx.handleLocationSubmit place) w)
    = (queue w ++ [appTsxUtterance r])%list /\
  started (after (AppTsx.handleLocationSubmit place) w) = started w /\
  interrupted (after (AppTsx.handleLocationSubmit place) w) = interrupted w.
Proof.
  open_world w. intros ->.
  unfold lookup, AppTsx.handleLocationSubmit, AppTsx.speakWeatherInfo,
    appTsxUtterance.
  unfold_primitives. simpl.
  destruct (getCoordinates place) as [c|e]; simpl; [|discriminate].
  intros ->. simpl. repeat split; reflexivity.
Qed.

Lemma appTsx_successful_lookup_witness :
  lookup (H := sampleImports) "Hyderabad" = Fulfilled (Some hyderabadReading) /\
  queue speakingWorldAppTsx
    = [appTsxUtterance (H := sampleImports) hyderabadReading] /\
  queue (after (AppTsx.handleLocationSubmit (H := sampleImports) "Hyderabad")
           speakingWorldAppTsx)
    = [appTsxUtterance (H := sampleImports) hyderabadReading;
       appTsxUtterance (H := sampleImports) hyderabadReading].
Proof.
  split; [reflexivity|]. split; [reflexivity|].
  destruct (appTsx_successful_lookup_queues_speech sampleImports "Hyderabad"
              hyderabadReading speakingWorldAppTsx eq_refl eq_refl)
    as (_ & _ & Hq & _).
  rewrite Hq. reflexivity.
Defined.

(** * What the utterance callbacks write *)

(** X17.  Whatever the synthesiser reports (an utterance beginning,
    ending or failing, a cancelled one being notified), the callbacks of
    part_000 write the speaking flag and nothing else of the view: the
    reading, the advice, the error message and the listening flag are
    what they were, and no lookup is started or ended. *)
Theorem synthesiser_writes_only_speaking
    (I : Imports) (e : SynthesiserEvent) (w w' : World) :
  Part000.step (Part000.Synthesiser e) w = Some w' ->
  weatherData (view w') = weatherData (view w) /\
  agricultureTips (view w') = agricultureTips (view w) /\
  error (view w') = error (view w) /\
  isListening (view w') = isListening (view w) /\
  lookups w' = lookups w /\
  recognizing w' = recognizing w.
Proof.
  open_world w.
  destruct e; unfold_part000; unfold_primitives;
    intros Hstep; split_step; repeat split; reflexivity.
Qed.

Lemma synthesiser_writes_only_speaking_witness :
  Part000.step (H := sampleImports) (Part000.Synthesiser UtteranceEnd)
    speakingWorld
  = Some (orInitial (Part000.step (H := sampleImports)
                       (Part000.Synthesiser UtteranceEnd) speakingWorld)) /\
  isSpeaking (view (orInitial (Part000.step (H := sampleImports)
                       (Part000.Synthesiser UtteranceEnd) speakingWorld)))
    = false /\
  weatherData (view (orInitial (Part000.step (H := sampleImports)
                       (Part000.Synthesiser UtteranceEnd) speakingWorld)))
    = weatherData (view speakingWorld).
Proof.
  assert (Hstep : Part000.step (H := sampleImports)
                    (Part000.Synthesiser UtteranceEnd) speakingWorld
                  = Some (orInitial (Part000.step (H := sampleImports)
                       (Part000.Synthesiser UtteranceEnd) speakingWorld)))
    by (vm_compute; reflexivity).
  split; [exact Hstep|]. split; [vm_compute; reflexivity|].
  exact (proj1 (synthesiser_writes_only_speaking sampleImports UtteranceEnd
                  speakingWorld _ Hstep)).
Defined.
